(** * Webpage Q&A with sources: a model of [main.py]

    The script is Streamlit glue around third-party services: a structured
    URL loader, an HTTP client, an HTML parser, a text splitter, an embedding
    service, a vector index and a question-answering chain.  The model keeps
    the script's own control flow (fallback selection, guards, exception
    handling, order of effects) and treats every service as an operation of
    an abstract environment that may succeed or raise. *)

From Stdlib Require Import List ZArith NArith QArith Bool Lia ZifyBool String Ascii DecimalString.
Import ListNotations.

Local Open Scope Z_scope.

(* ===================================================================== *)
(** * Python strings *)
(* ===================================================================== *)

(** A Python [str] is a sequence of Unicode code points. *)
Definition text := list N.

Definition len {A} (l : list A) : Z := Z.of_nat (List.length l).

(** Truth value of a sequence: non-empty. *)
Definition truthy {A} (l : list A) : bool :=
  match l with [] => false | _ :: _ => true end.

Definition text_eqb (a b : text) : bool :=
  if list_eq_dec N.eq_dec a b then true else false.

(** Source literals are written as UTF-8 Rocq strings and decoded to code
    points. *)
Definition cont (b : N) : N := N.land b 63.

Fixpoint utf8_decode (bs : list N) : text :=
  match bs with
  | [] => []
  | b :: r =>
      if (b <? 128)%N then b :: utf8_decode r
      else if (b <? 224)%N then
        match r with
        | b1 :: r1 => (N.shiftl (N.land b 31) 6 + cont b1)%N :: utf8_decode r1
        | _ => [b]
        end
      else if (b <? 240)%N then
        match r with
        | b1 :: b2 :: r2 =>
            (N.shiftl (N.land b 15) 12 + N.shiftl (cont b1) 6 + cont b2)%N
              :: utf8_decode r2
        | _ => [b]
        end
      else
        match r with
        | b1 :: b2 :: b3 :: r3 =>
            (N.shiftl (N.land b 7) 18 + N.shiftl (cont b1) 12
             + N.shiftl (cont b2) 6 + cont b3)%N :: utf8_decode r3
        | _ => [b]
        end
  end.

Definition py (s : string) : text :=
  utf8_decode (List.map N_of_ascii (list_ascii_of_string s)).

(** [str(n)] for an integer. *)
Definition str_of_int (n : Z) : text :=
  py (NilZero.string_of_int (Z.to_int n)).

(** The newline character, written ["\n"] in the source. *)
Definition LF : text := [10%N].

(** [str.isspace] on one code point: the white-space table of CPython. *)
Definition isspace (c : N) : bool :=
  ((9 <=? c) && (c <=? 13) || (28 <=? c) && (c <=? 32)
   || (c =? 133) || (c =? 160) || (c =? 5760)
   || (8192 <=? c) && (c <=? 8202)
   || (c =? 8232) || (c =? 8233) || (c =? 8239) || (c =? 8287)
   || (c =? 12288))%N.

Fixpoint lstrip (t : text) : text :=
  match t with
  | [] => []
  | c :: t' => if isspace c then lstrip t' else t
  end.

Definition rstrip (t : text) : text := rev (lstrip (rev t)).

(** [str.strip()] with no argument. *)
Definition strip (t : text) : text := rstrip (lstrip t).

(** [sep.join(parts)]. *)
Fixpoint join (sep : text) (parts : list text) : text :=
  match parts with
  | [] => []
  | [p] => p
  | p :: rest => p ++ sep ++ join sep rest
  end.

(* ===================================================================== *)
(** * Documents *)
(* ===================================================================== *)

(** [langchain.schema.Document]: page content and a metadata dictionary.
    The dictionary is kept as the list of its items. *)
Record Document := mkDocument {
  page_content : text;
  metadata : list (text * text)
}.

Fixpoint dict_get (k : text) (d : list (text * text)) : option text :=
  match d with
  | [] => None
  | (k', v) :: d' => if text_eqb k k' then Some v else dict_get k d'
  end.

(** [doc.metadata["source"]], when present. *)
Definition source (d : Document) : option text :=
  dict_get (py "source") (metadata d).

(* ===================================================================== *)
(** * The text splitter *)
(* ===================================================================== *)

(** The script builds a [RecursiveCharacterTextSplitter] and calls its
    [split_documents].  The class comes from a library whose code is not part
    of the repository, so this module is written from section 4.2 of the
    specification: a priority list of separators, a size budget, an overlap
    between consecutive chunks, and the metadata of a document copied to each
    of its chunks.  Where the specification leaves the algorithm open, the
    module takes the one the library documents for the defaults the script
    keeps: separators are literal strings and stay at the start of the piece
    that follows them, lengths are counted by [len], and chunks are stripped
    of surrounding white space. *)
Module Splitter.

(** The arguments of the constructor call at lines 101-105 of [main.py]. *)
Record Config := mkConfig {
  separators : list text;
  chunk_size : Z;
  chunk_overlap : Z
}.

(** Modelled from the spec: the test of the library's splitter for a
    separator at the start of a text. *)
Fixpoint starts_with (p t : text) : bool :=
  match p, t with
  | [], _ => true
  | _ :: _, [] => false
  | a :: p', b :: t' => (a =? b)%N && starts_with p' t'
  end.

(** Modelled from the spec: the search of the library's splitter for a
    separator.  Does the literal [sep] occur in [t]? *)
Fixpoint occurs (sep t : text) : bool :=
  starts_with sep t ||
  match t with
  | [] => false
  | _ :: t' => occurs sep t'
  end.

(** Modelled from the spec: the cut of a text at a separator, which the
    library's splitter does with a regular expression.  The texts between the
    leftmost non-overlapping occurrences of a non-empty [sep] in [t]; [skip]
    counts the characters of a matched separator still to be passed over,
    [cur] is the piece being read. *)
Fixpoint between (sep : text) (skip : nat) (t cur : text) : list text :=
  match t with
  | [] => [cur]
  | c :: t' =>
      match skip with
      | S k => between sep k t' cur
      | O =>
          if starts_with sep t
          then cur :: between sep (Nat.pred (List.length sep)) t' []
          else between sep 0 t' (cur ++ [c])
      end
  end.

Definition nonempty (t : text) : bool := truthy t.

(** Modelled from the spec: splitting on one separator of the priority
    list, a step of the library's splitter.  The first piece, then each later
    piece with the separator in front; empty pieces are dropped.  The empty
    separator splits into single characters. *)
Definition split_keep (sep t : text) : list text :=
  match sep with
  | [] => List.map (fun c => [c]) t
  | _ :: _ =>
      match between sep 0 t [] with
      | [] => []
      | first :: rest => filter nonempty (first :: List.map (app sep) rest)
      end
  end.

Section Merge.

Variable cfg : Config.

(** Modelled from the spec: how the library's splitter makes a chunk of
    the pieces collected for it.  They are joined (with nothing in between,
    because separators are kept inside the pieces) and stripped; a chunk that
    is empty after stripping is not emitted. *)
Definition join_docs (current_doc : list text) : list text :=
  let t := strip (List.concat current_doc) in
  if truthy t then [t] else [].

(** Modelled from the spec: the overlap between consecutive chunks, the
    inner [while] loop of the library's merge.  Pieces are dropped from the
    front of the current chunk until what is kept fits the overlap and leaves
    room for the next piece of length [len_d].  Taking the head of an empty
    chunk is an [IndexError], rendered as [None]. *)
Fixpoint shrink (len_d : Z) (current_doc : list text) (total : Z)
  : option (list text * Z) :=
  if (total >? chunk_overlap cfg)
     || ((total + len_d >? chunk_size cfg) && (total >? 0))
  then
    match current_doc with
    | [] => None
    | d0 :: rest => shrink len_d rest (total - len d0)
    end
  else Some (current_doc, total).

(** Modelled from the spec: the size budget, the library's merge of small
    pieces into chunks of at most [chunk_size] characters, consecutive chunks
    sharing the pieces kept by [shrink]. *)
Fixpoint merge_loop (splits docs current_doc : list text) (total : Z)
  : option (list text) :=
  match splits with
  | [] => Some (docs ++ join_docs current_doc)
  | d :: splits' =>
      if (total + len d >? chunk_size cfg) && truthy current_doc then
        match shrink (len d) current_doc total with
        | None => None
        | Some (kept, total') =>
            merge_loop splits' (docs ++ join_docs current_doc)
                       (kept ++ [d]) (total' + len d)
        end
      else merge_loop splits' docs (current_doc ++ [d]) (total + len d)
  end.

(** Modelled from the spec: the merge of the library's splitter, started
    with no chunk and no piece. *)
Definition merge_splits (splits : list text) : option (list text) :=
  merge_loop splits [] [] 0.

(** Modelled from the spec: the loop of the library's splitter over the
    pieces of one split.  Pieces shorter than the budget are collected in
    [good] and merged; a piece that is not is split further by [deeper] when
    separators of lower priority remain, and emitted as it is when none
    remains. *)
Fixpoint split_loop (deeper : option (text -> option (list text)))
    (splits good final : list text) : option (list text) :=
  match splits with
  | [] =>
      if truthy good then
        match merge_splits good with
        | None => None
        | Some merged => Some (final ++ merged)
        end
      else Some final
  | s :: splits' =>
      if len s <? chunk_size cfg then split_loop deeper splits' (good ++ [s]) final
      else
        match (if truthy good
               then option_map (app final) (merge_splits good)
               else Some final) with
        | None => None
        | Some final1 =>
            match deeper with
            | None => split_loop deeper splits' [] (final1 ++ [s])
            | Some split_rec =>
                match split_rec s with
                | None => None
                | Some other => split_loop deeper splits' [] (final1 ++ other)
                end
            end
        end
  end.

(** Modelled from the spec: the priority list of separators, the recursion
    of the library's splitter.  The separator used is the first of the list
    that occurs in the text, or the last one when none occurs; the separators
    after it are left for the pieces that are still too long.  An empty
    separator list has no last element ([IndexError]). *)
Fixpoint split_text_rec (seps : list text) (t : text) {struct seps}
  : option (list text) :=
  match seps with
  | [] => None
  | sep :: rest =>
      if negb (truthy sep) then split_loop None (split_keep sep t) [] []
      else if occurs sep t then
        split_loop (match rest with
                    | [] => None
                    | _ :: _ => Some (split_text_rec rest)
                    end)
                   (split_keep sep t) [] []
      else
        match rest with
        | [] => split_loop None (split_keep sep t) [] []
        | _ :: _ => split_text_rec rest t
        end
  end.

(** Modelled from the spec: [split_text] of the library's splitter, the
    recursive split over the configured separators. *)
Definition split_text (t : text) : option (list text) :=
  split_text_rec (separators cfg) t.

(** Modelled from the spec: [split_documents] of the library's splitter.
    Every chunk of a document is a new document carrying a copy of the
    metadata of the document it was cut from. *)
Fixpoint split_documents (documents : list Document) : option (list Document) :=
  match documents with
  | [] => Some []
  | doc :: documents' =>
      match split_text (page_content doc), split_documents documents' with
      | Some chunks, Some others =>
          Some (List.map (fun chunk => mkDocument chunk (metadata doc)) chunks
                  ++ others)
      | _, _ => None
      end
  end.

(** A chunk within the size budget, and a piece below it. *)
Definition fits (c : text) : Prop := len c <= chunk_size cfg.
Definition small (s : text) : Prop := len s < chunk_size cfg.

End Merge.

(** [clean used t]: none of the characters [used] occurs in [t] after its
    first character, so that cutting [t] at one of them gives [t] back. *)
Definition clean (used : list N) (t : text) : Prop :=
  forall u, In u used -> ~ In u (tl t).

(** No separator of the list occurs in [t] after its first character. *)
Definition unsplittable (seps : list text) (t : text) : Prop :=
  Forall (fun sep => occurs sep (tl t) = false) seps.



End Splitter.

(* ===================================================================== *)
(** * The environment of the script *)
(* ===================================================================== *)

(** [requests.Response], as far as the script reads it. *)
Record Response := mkResponse {
  status_code : Z;
  res_text : text
}.

(** Everything the script calls but does not define.  [world] is the state
    of what lies outside the process (network, remote services); an
    operation reads and updates it and either returns or raises an exception
    of class [Exception].  The folder on disk is not part of [world]: the
    script reaches it through [os.path.exists], [save_local] and
    [load_local] only. *)
Record Env := mkEnv {
  world : Type;
  lib_exn : Type;
  lib_exn_str : lib_exn -> text;
  vector : Type;
  faiss : Type;
  folder : Type;
  embeddings : Type;
  llm : Type;
  chain : Type;
  (** [UnstructuredURLLoader(urls=urls, headers=headers).load()], the import
      of the class included. *)
  unstructured_load :
    list text -> list (text * text) -> world -> (lib_exn + list Document) * world;
  (** [requests.get(url, headers=headers, timeout=10)]. *)
  requests_get :
    text -> list (text * text) -> Z -> world -> (lib_exn + Response) * world;
  (** [[p.text for p in BeautifulSoup(body, "html.parser").find_all("p")]]. *)
  soup_paragraphs : text -> world -> (lib_exn + list text) * world;
  (** [OpenAIEmbeddings()]. *)
  openai_embeddings : world -> (lib_exn + embeddings) * world;
  (** The embedding service: one vector for each text. *)
  embed_documents : embeddings -> list text -> world -> (lib_exn + list vector) * world;
  (** Construction of the similarity index over the vectors. *)
  faiss_index : list vector -> world -> (lib_exn + faiss) * world;
  (** [OpenAI(temperature=..., max_tokens=...)]. *)
  openai_llm : Q -> Z -> world -> (lib_exn + llm) * world;
  (** [RetrievalQAWithSourcesChain.from_llm]. *)
  chain_from_llm : llm -> faiss -> list Document -> world -> (lib_exn + chain) * world;
  (** [chain({"question": query})]: the answer and the sources. *)
  chain_call : chain -> text -> world -> (lib_exn + text * text) * world;
  (** Writing and reading an index folder.  Writing gets the old contents of
      the path and gives the new ones. *)
  write_folder :
    faiss -> list Document -> option folder -> world ->
    (lib_exn + unit) * option folder * world;
  read_folder :
    option folder -> embeddings -> bool -> world ->
    (lib_exn + faiss * list Document) * world
}.

Section Script.

Context (E : Env).

(** Exceptions of class [Exception]: those of the libraries, and the
    [IndexError] of a list access out of range. *)
Inductive exn :=
| IndexError
| LibError (e : lib_exn E).

(** [str(e)]. *)
Definition exn_str (e : exn) : text :=
  match e with
  | IndexError => py "list index out of range"
  | LibError e => lib_exn_str E e
  end.

(** [langchain_community.vectorstores.FAISS]: the index and the chunks it
    was built from. *)
Record VectorStore := mkVectorStore {
  index : faiss E;
  docstore : list Document
}.

(** What the page shows. *)
Inductive UiMsg :=
| UiError (t : text)
| UiWarning (t : text)
| UiInfo (t : text)
| UiSuccess (t : text)
| UiWrite (args : list text)
| UiPlaceholderInfo (t : text)
| UiPlaceholderSuccess (t : text).

(** Calls that leave the script, in the order they are made. *)
Inductive Call :=
| CallUnstructuredLoad (urls : list text)
| CallRequestsGet (url : text)
| CallSoup (body : text)
| CallSplitDocuments (data : list Document)
| CallOpenAIEmbeddings
| CallEmbedDocuments (texts : list text)
| CallFaissIndex
| CallSaveLocal (vs : VectorStore) (path : text)
| CallLoadLocal (path : text)
| CallOpenAI
| CallChainFromLlm
| CallChain (question : text).

Record State := mkState {
  fs : text -> option (folder E);
  outside : world E;
  ui : list UiMsg;
  calls : list Call
}.

Inductive Outcome (A : Type) :=
| Ok (a : A)
| Raise (e : exn).
Arguments Ok {A} a.
Arguments Raise {A} e.

(** Statements of the script: they run on a state and return or raise;
    what was done before an exception stays done. *)
Definition M (A : Type) := State -> Outcome A * State.

Definition ret {A} (a : A) : M A := fun st => (Ok a, st).

Definition bind {A B} (m : M A) (k : A -> M B) : M B :=
  fun st =>
    match m st with
    | (Ok a, st') => k a st'
    | (Raise e, st') => (Raise e, st')
    end.

Definition raise {A} (e : exn) : M A := fun st => (Raise e, st).

(** [try: body except Exception as e: handler]. *)
Definition try_except {A} (body : M A) (handler : exn -> M A) : M A :=
  fun st =>
    match body st with
    | (Ok a, st') => (Ok a, st')
    | (Raise e, st') => handler e st'
    end.

Notation "x <- m ;; k" := (bind m (fun x => k))
  (at level 61, m at next level, right associativity).
Notation "m ;; k" := (bind m (fun _ => k))
  (at level 61, right associativity).

(** [for x in xs: acc = body(x, acc)]. *)
Fixpoint for_each {A S} (xs : list A) (body : A -> S -> M S) (acc : S) : M S :=
  match xs with
  | [] => ret acc
  | x :: xs' => acc' <- body x acc ;; for_each xs' body acc'
  end.

Definition show (m : UiMsg) : M unit :=
  fun st => (Ok tt, mkState (fs st) (outside st) (ui st ++ [m]) (calls st)).

Definition st_error t := show (UiError t).
Definition st_warning t := show (UiWarning t).
Definition st_info t := show (UiInfo t).
Definition st_success t := show (UiSuccess t).
Definition st_write args := show (UiWrite args).
Definition main_placeholder_info t := show (UiPlaceholderInfo t).
Definition main_placeholder_success t := show (UiPlaceholderSuccess t).

(** A call of an operation of the environment. *)
Definition call {A} (c : Call) (op : world E -> (lib_exn E + A) * world E) : M A :=
  fun st =>
    let (r, w) := op (outside st) in
    let st' := mkState (fs st) w (ui st) (calls st ++ [c]) in
    match r with
    | inl e => (Raise (LibError e), st')
    | inr a => (Ok a, st')
    end.

Definition fs_set (path : text) (v : option (folder E))
    (f : text -> option (folder E)) : text -> option (folder E) :=
  fun p => if text_eqb p path then v else f p.

(** [os.path.exists(path)]. *)
Definition os_path_exists (path : text) : M bool :=
  fun st => (Ok (match fs st path with Some _ => true | None => false end), st).

(** [vectorstore.save_local(path)]. *)
Definition save_local (vs : VectorStore) (path : text) : M unit :=
  fun st =>
    match write_folder E (index vs) (docstore vs) (fs st path) (outside st) with
    | (r, new, w) =>
        let st' := mkState (fs_set path new (fs st)) w (ui st)
                           (calls st ++ [CallSaveLocal vs path]) in
        match r with
        | inl e => (Raise (LibError e), st')
        | inr _ => (Ok tt, st')
        end
    end.

(** [FAISS.load_local(path, embeddings, allow_dangerous_deserialization=..)]. *)
Definition load_local (path : text) (emb : embeddings E) (allow : bool)
  : M VectorStore :=
  fun st =>
    bind (call (CallLoadLocal path) (read_folder E (fs st path) emb allow))
         (fun r => ret (mkVectorStore (fst r) (snd r))) st.

(** Modelled from the spec: [FAISS.from_documents] is library code that is
    not part of the repository.  Following section 4.3 of the specification,
    it computes one embedding per chunk through the embedding service,
    constructs the similarity index over the vectors, and keeps every chunk
    (content and metadata) with the index. *)
Definition FAISS_from_documents (docs : list Document) (emb : embeddings E)
  : M VectorStore :=
  let texts := List.map page_content docs in
  vectors <- call (CallEmbedDocuments texts) (embed_documents E emb texts) ;;
  idx <- call CallFaissIndex (faiss_index E vectors) ;;
  ret (mkVectorStore idx docs).

(* ===================================================================== *)
(** * The script *)
(* ===================================================================== *)

(** Line 21. *)
Definition faiss_folder : text := py "faiss_index".

Definition user_agent_headers : list (text * text) :=
  [(py "User-Agent",
    py "Mozilla/5.0 (Windows NT 10.0; Win64; x64) "
    ++ py "AppleWebKit/537.36 (KHTML, like Gecko) "
    ++ py "Chrome/120.0.0.0 Safari/537.36")].

(** The widgets of one run of the script: the three text inputs of the
    side bar, the button and the question box. *)
Record Inputs := mkInputs {
  url_input : nat -> text;
  process_url_clicked : bool;
  query : text
}.

(** Lines 24-28. *)
Definition sidebar_urls (inp : Inputs) : list text :=
  fold_left
    (fun urls i =>
       let url := url_input inp i in
       if truthy (strip url) then urls ++ [strip url] else urls)
    [1; 2; 3]%nat [].

(** Lines 47-62: the body of the loop of [fallback_bs4_loader]. *)
Definition fetch_one (url : text) (docs : list Document) : M (list Document) :=
  try_except
    (res <- call (CallRequestsGet url)
                 (requests_get E url user_agent_headers 10) ;;
     if negb (status_code res =? 200) then
       st_warning (py "⚠️ Failed to fetch " ++ url ++ py " (status "
                   ++ str_of_int (status_code res) ++ py ")") ;;
       ret docs
     else
       paragraphs <- call (CallSoup (res_text res))
                          (soup_paragraphs E (res_text res)) ;;
       let text := join (py " ") paragraphs in
       if truthy (strip text) then
         let docs := docs ++ [mkDocument text [(py "source", url)]] in
         st_success (py "✅ Loaded " ++ url ++ py " (BeautifulSoup)") ;;
         ret docs
       else
         st_warning (py "⚠️ No readable text found at " ++ url) ;;
         ret docs)
    (fun e =>
       st_error (py "Error fetching " ++ url ++ py ": " ++ exn_str e) ;;
       ret docs).

(** Lines 34-63. *)
Definition fallback_bs4_loader (urls : list text) : M (list Document) :=
  for_each urls fetch_one [].

(** Lines 101-105. *)
Definition text_splitter : Splitter.Config :=
  Splitter.mkConfig [LF ++ LF; LF; py "."; py ","] 1000 100.

(** [text_splitter.split_documents(data)]. *)
Definition split_documents (data : list Document) : M (list Document) :=
  fun st =>
    let st' := mkState (fs st) (outside st) (ui st)
                       (calls st ++ [CallSplitDocuments data]) in
    match Splitter.split_documents text_splitter data with
    | Some docs => (Ok docs, st')
    | None => (Raise IndexError, st')
    end.

(** Lines 72-93: the primary loader, then the fallback when it gave
    nothing. *)
Definition fetch_documents (urls : list text) : M (list Document) :=
  data <- try_except
            (call (CallUnstructuredLoad urls)
                  (unstructured_load E urls user_agent_headers))
            (fun e =>
               st_warning (py "⚠️ Unstructured loader failed: " ++ exn_str e) ;;
               ret []) ;;
  if negb (truthy data) || (len data =? 0) then
    st_info (py "Using BeautifulSoup fallback...") ;;
    fallback_bs4_loader urls
  else ret data.

(** Lines 67-116: the handler of the "Process URLs" button. *)
Definition process_urls (urls : list text) : M unit :=
  if negb (truthy urls) then
    st_error (py "Please enter at least one valid URL.")
  else
    main_placeholder_info (py "🔄 Loading data from URLs...") ;;
    data <- fetch_documents urls ;;
    st_write [py "Loaded docs:"; str_of_int (len data)] ;;
    if len data =? 0 then
      st_error (py "❌ No content could be loaded. Check your URLs or site accessibility.")
    else
      docs <- split_documents data ;;
      st_write [py "Number of split docs:"; str_of_int (len docs)] ;;
      main_placeholder_info (py "⚙️ Generating embeddings and building FAISS index...") ;;
      emb <- call CallOpenAIEmbeddings (openai_embeddings E) ;;
      vectorstore <- FAISS_from_documents docs emb ;;
      save_local vectorstore faiss_folder ;;
      main_placeholder_success
        (py "✅ FAISS index saved locally at '" ++ faiss_folder ++ py "'!").

(** Lines 122-143: the handler of a question. *)
Definition answer_query (model : llm E) (question : text) : M unit :=
  present <- os_path_exists faiss_folder ;;
  if negb present then
    st_error (py "FAISS index not found. Please process URLs first.")
  else
    st_info (py "🔍 Searching for answers...") ;;
    emb <- call CallOpenAIEmbeddings (openai_embeddings E) ;;
    vectorstore <- load_local faiss_folder emb true ;;
    qa <- call CallChainFromLlm
               (chain_from_llm E model (index vectorstore) (docstore vectorstore)) ;;
    result <- call (CallChain question) (chain_call E qa question) ;;
    st_write [py "**Answer:**"; fst result] ;;
    st_write [py "**Sources:**"; snd result].

(** One run of the script, top to bottom (the page configuration and the
    titles, which no handler reads, are left out). *)
Definition script (inp : Inputs) : M unit :=
  let urls := sidebar_urls inp in
  (if process_url_clicked inp then process_urls urls else ret tt) ;;
  model <- call CallOpenAI (openai_llm E (9 # 10)%Q 500) ;;
  if truthy (query inp) then answer_query model (query inp) else ret tt.

(* ===================================================================== *)
(** * Observations on a run *)
(* ===================================================================== *)

(** The state after one more message on the page. *)
Definition shown (m : UiMsg) (st : State) : State :=
  mkState (fs st) (outside st) (ui st ++ [m]) (calls st).

(** The URLs requested by the fallback fetcher, in order. *)
Definition fetched (cs : list Call) : list text :=
  flat_map (fun c => match c with CallRequestsGet u => [u] | _ => [] end) cs.

(** The calls of the content fetcher. *)
Definition is_fetch_call (c : Call) : bool :=
  match c with
  | CallUnstructuredLoad _ | CallRequestsGet _ | CallSoup _ => true
  | _ => false
  end.

(** Everything after fetching: chunking, embedding, index construction,
    persistence, and the calls of the question handler. *)
Definition downstream_calls (cs : list Call) : list Call :=
  filter (fun c => negb (is_fetch_call c)) cs.

(** The embedding client, the embedding request and the index construction. *)
Definition is_build_call (c : Call) : bool :=
  match c with
  | CallOpenAIEmbeddings | CallEmbedDocuments _ | CallFaissIndex => true
  | _ => false
  end.

(** The stores handed to [save_local]. *)
Definition saves (cs : list Call) : list (VectorStore * text) :=
  flat_map (fun c => match c with CallSaveLocal vs p => [(vs, p)] | _ => [] end) cs.

(** How often the page announced the fallback. *)
Definition fallback_notices (msgs : list UiMsg) : nat :=
  List.length
    (filter (fun m => match m with
                      | UiInfo t => text_eqb t (py "Using BeautifulSoup fallback...")
                      | _ => false
                      end) msgs).


(** The messages of the handler around the fetch. *)
Definition msg_loading : UiMsg :=
  UiPlaceholderInfo (py "🔄 Loading data from URLs...").
Definition msg_no_content : UiMsg :=
  UiError (py "❌ No content could be loaded. Check your URLs or site accessibility.").
Definition msg_loaded (n : Z) : UiMsg :=
  UiWrite [py "Loaded docs:"; str_of_int n].

(** The messages of the two guards. *)
Definition msg_no_url : UiMsg :=
  UiError (py "Please enter at least one valid URL.").
Definition msg_no_index : UiMsg :=
  UiError (py "FAISS index not found. Please process URLs first.").

(** A chunk of one of the documents [data]: same metadata, same source. *)
Definition chunk_of (data : list Document) (c : Document) : Prop :=
  exists d, In d data /\ metadata c = metadata d /\ source c = source d.

(** A URL as the side bar hands it on: one of the three fields, stripped,
    and not empty. *)
Definition entered (inp : Inputs) (u : text) : Prop :=
  truthy u = true /\ strip u = u
  /\ exists i, (1 <= i <= 3)%nat /\ u = strip (url_input inp i).

(** A document made by the fallback for one of [urls]. *)
Definition fallback_document (urls : list text) (d : Document) : Prop :=
  exists u, In u urls /\ metadata d = [(py "source", u)]
            /\ truthy (strip (page_content d)) = true.

(** The messages the fallback fetcher shows for a URL it could not load:
    an exception, a status other than 200, or no paragraph text. *)
Definition failure_report (url : text) (m : UiMsg) : Prop :=
  (exists e, m = UiError (py "Error fetching " ++ url ++ py ": " ++ exn_str e))
  \/ (exists code, code <> 200 /\
        m = UiWarning (py "⚠️ Failed to fetch " ++ url ++ py " (status "
                       ++ str_of_int code ++ py ")"))
  \/ m = UiWarning (py "⚠️ No readable text found at " ++ url).

(** The message for a URL it loaded. *)
Definition success_report (url : text) (m : UiMsg) : Prop :=
  m = UiSuccess (py "✅ Loaded " ++ url ++ py " (BeautifulSoup)").

(** The one message the fallback fetcher shows for a URL. *)
Definition reports (url : text) (m : UiMsg) : Prop :=
  failure_report url m \/ success_report url m.

Definition is_success (m : UiMsg) : bool :=
  match m with
  | UiSuccess _ => true
  | _ => false
  end.

(** The URLs whose message, at the same position, is a success. *)
Fixpoint loaded_urls (urls : list text) (msgs : list UiMsg) : list text :=
  match urls, msgs with
  | u :: urls', m :: msgs' =>
      (if is_success m then [u] else []) ++ loaded_urls urls' msgs'
  | _, _ => []
  end.



(** The first stage of a run of the script, lines 67-116: the "Process
    URLs" handler when the button was pressed, nothing otherwise. *)
Definition first_stage (inp : Inputs) : M unit :=
  if process_url_clicked inp then process_urls (sidebar_urls inp) else ret tt.

(** The paths given to [load_local]. *)
Definition loads (cs : list Call) : list text :=
  flat_map (fun c => match c with CallLoadLocal p => [p] | _ => [] end) cs.

(** The calls of the fallback fetcher alone. *)
Definition is_fallback_call (c : Call) : bool :=
  match c with
  | CallRequestsGet _ | CallSoup _ => true
  | _ => false
  end.

(** The calls the "Process URLs" handler makes, and those of the question
    handler. *)
Definition is_process_call (c : Call) : bool :=
  match c with
  | CallUnstructuredLoad _ | CallRequestsGet _ | CallSoup _
  | CallSplitDocuments _ | CallOpenAIEmbeddings | CallEmbedDocuments _
  | CallFaissIndex | CallSaveLocal _ _ => true
  | _ => false
  end.

Definition is_query_call (c : Call) : bool :=
  match c with
  | CallOpenAIEmbeddings | CallLoadLocal _ | CallChainFromLlm | CallChain _ => true
  | _ => false
  end.

(** The other messages of the two handlers. *)
Definition msg_loader_failed (e : exn) : UiMsg :=
  UiWarning (py "⚠️ Unstructured loader failed: " ++ exn_str e).
Definition msg_fallback : UiMsg :=
  UiInfo (py "Using BeautifulSoup fallback...").
Definition msg_split (n : Z) : UiMsg :=
  UiWrite [py "Number of split docs:"; str_of_int n].
Definition msg_building : UiMsg :=
  UiPlaceholderInfo (py "⚙️ Generating embeddings and building FAISS index...").
Definition msg_saved : UiMsg :=
  UiPlaceholderSuccess
    (py "✅ FAISS index saved locally at '" ++ faiss_folder ++ py "'!").
Definition msg_searching : UiMsg :=
  UiInfo (py "🔍 Searching for answers...").
Definition msg_answer (answer : text) : UiMsg :=
  UiWrite [py "**Answer:**"; answer].
Definition msg_sources (sources : text) : UiMsg :=
  UiWrite [py "**Sources:**"; sources].
Definition msg_no_text (url : text) : UiMsg :=
  UiWarning (py "⚠️ No readable text found at " ++ url).

(** The message that announces a saved index. *)
Definition is_saved_msg (m : UiMsg) : bool :=
  match m with
  | UiPlaceholderSuccess _ => true
  | _ => false
  end.

(** The messages that show an answer or its sources. *)
Definition is_write (m : UiMsg) : bool :=
  match m with
  | UiWrite _ => true
  | _ => false
  end.

End Script.

Arguments Ok {E A} a.
Arguments Raise {E A} e.
Arguments IndexError {E}.
Arguments LibError {E} e.

(* ===================================================================== *)
(** * A small concrete environment *)
(* ===================================================================== *)

(** An environment given by three tables: what the structured loader
    returns for a list of URLs, what a GET returns for a URL, and what the
    embedding service returns for a list of texts.  Errors are their
    messages.  Paragraphs are the lines of the body. *)
Module Demo.

Fixpoint lines (t cur : text) : list text :=
  match t with
  | [] => if truthy cur then [cur] else []
  | c :: t' => if (c =? 10)%N then cur :: lines t' [] else lines t' (cur ++ [c])
  end.

Definition env
    (loader : list text -> text + list Document)
    (get : text -> text + Response)
    (embed : list text -> text + list nat) : Env :=
  {| world := unit;
     lib_exn := text;
     lib_exn_str := fun e => e;
     vector := nat;
     faiss := list nat;
     folder := list nat * list Document;
     embeddings := unit;
     llm := unit;
     chain := list Document;
     unstructured_load := fun urls _ w => (loader urls, w);
     requests_get := fun url _ _ w => (get url, w);
     soup_paragraphs := fun body w => (inr (lines body []), w);
     openai_embeddings := fun w => (inr tt, w);
     embed_documents := fun _ texts w => (embed texts, w);
     faiss_index := fun vs w => (inr vs, w);
     openai_llm := fun _ _ w => (inr tt, w);
     chain_from_llm := fun _ _ docs w => (inr docs, w);
     chain_call := fun docs q w =>
       (inr (q, join (py ", ")
                  (flat_map (fun d => match source d with
                                      | Some s => [s]
                                      | None => []
                                      end) docs)), w);
     write_folder := fun idx docs _ w => (inr tt, Some (idx, docs), w);
     read_folder := fun f _ _ w =>
       (match f with
        | Some c => inr c
        | None => inl (py "could not open index")
        end, w) |}.

Definition url_a : text := py "https://example.com/a".


Definition blank : Inputs :=
  mkInputs (fun i => if Nat.eqb i 2 then py "   " else []) true [].

Definition no_loader : list text -> text + list Document :=
  fun _ => inl (py "unstructured is not installed").

Definition page_a : text -> text + Response :=
  fun u => if text_eqb u url_a
           then inr (mkResponse 200 (py "Hello." ++ LF ++ py "World."))
           else inr (mkResponse 404 []).

Definition unreachable : text -> text + Response :=
  fun _ => inl (py "connection refused").

(** A page served with status 200 whose paragraphs hold white space only. *)
Definition page_blank : text -> text + Response :=
  fun _ => inr (mkResponse 200 (py "  " ++ LF ++ py " ")).

Definition embed_lengths : list text -> text + list nat :=
  fun texts => inr (List.map (@List.length N) texts).


Definition start (E : Env) (w : world E) : State E :=
  mkState E (fun _ => None) w [] [].

(** No structured loader and no network. *)
Definition offline : Env := env no_loader unreachable embed_lengths.

(** No structured loader; the page of the scenario is served. *)
Definition online : Env := env no_loader page_a embed_lengths.


(** A structured loader that returns one document for each URL. *)
Definition loader_pages : list text -> text + list Document :=
  fun urls =>
    inr (List.map (fun u => mkDocument (py "Body of " ++ u) [(py "source", u)]) urls).

(** The structured loader works; the network is not needed. *)
Definition structured : Env := env loader_pages unreachable embed_lengths.

(** No structured loader; every page is blank. *)
Definition blank_pages : Env := env no_loader page_blank embed_lengths.

(** The side bar untouched and the question box filled. *)
Definition only_question : Inputs :=
  mkInputs (fun _ => []) false (py "What is X?").

(** The button pressed with blank fields, and a question in the box. *)
Definition blank_with_question : Inputs :=
  mkInputs (fun i => if Nat.eqb i 2 then py "   " else []) true (py "What is X?").

End Demo.

(* ===================================================================== *)
(** * Facts about strings *)
(* ===================================================================== *)

(** Case analysis on the test of the first conditional of the goal. *)
Ltac case_if H :=
  match goal with
  | |- context [if ?b then _ else _] => destruct b eqn:H
  end.

(** Symbolic execution of the statements of the script. *)
Ltac run :=
  cbv beta iota zeta delta
    [bind ret raise try_except call show shown
     st_error st_warning st_info st_success st_write
     main_placeholder_info main_placeholder_success];
  cbn [fs outside ui calls fst snd].

Lemma len_nonneg {A} (l : list A) : 0 <= len l.
Proof. unfold len. lia. Qed.

Lemma len_app {A} (l1 l2 : list A) : len (l1 ++ l2) = len l1 + len l2.
Proof. unfold len. rewrite length_app. lia. Qed.

Lemma len_nil_iff {A} (l : list A) : len l = 0 <-> l = [].
Proof.
  unfold len. destruct l as [|a l]; simpl; split; intros H;
    try reflexivity; try discriminate; lia.
Qed.

Lemma truthy_false_iff {A} (l : list A) : truthy l = false <-> l = [].
Proof. destruct l; simpl; split; congruence. Qed.

Lemma text_eqb_refl (t : text) : text_eqb t t = true.
Proof. unfold text_eqb. destruct (list_eq_dec N.eq_dec t t); congruence. Qed.

Lemma text_eqb_eq (a b : text) : text_eqb a b = true <-> a = b.
Proof.
  unfold text_eqb. destruct (list_eq_dec N.eq_dec a b); split; congruence.
Qed.

Lemma lstrip_length (t : text) : (List.length (lstrip t) <= List.length t)%nat.
Proof.
  induction t as [|c t IH]; simpl; [lia|].
  destruct (isspace c); simpl; lia.
Qed.

Lemma strip_length (t : text) : (List.length (strip t) <= List.length t)%nat.
Proof.
  unfold strip, rstrip. rewrite length_rev.
  pose proof (lstrip_length (rev (lstrip t))) as H1.
  rewrite length_rev in H1.
  pose proof (lstrip_length t). lia.
Qed.

Lemma len_strip (t : text) : len (strip t) <= len t.
Proof. unfold len. pose proof (strip_length t). lia. Qed.

(** White space only strips to nothing. *)
Lemma lstrip_blank (t : text) : forallb isspace t = true -> lstrip t = [].
Proof.
  induction t as [|c t IH]; simpl; [reflexivity|].
  intros H. apply andb_true_iff in H as [Hc Ht]. rewrite Hc. auto.
Qed.

Lemma strip_blank (t : text) : forallb isspace t = true -> strip t = [].
Proof. intros H. unfold strip. rewrite (lstrip_blank t H). reflexivity. Qed.

(** What [lstrip] returns does not start with white space. *)
Lemma lstrip_head (t : text) :
  match lstrip t with [] => True | c :: _ => isspace c = false end.
Proof.
  induction t as [|c t IH]; simpl; [exact I|].
  destruct (isspace c) eqn:Hc; [exact IH | exact Hc].
Qed.

Lemma lstrip_fixed (t : text) :
  match t with [] => True | c :: _ => isspace c = false end -> lstrip t = t.
Proof. destruct t as [|c t]; simpl; [reflexivity|]. intros ->. reflexivity. Qed.

Lemma lstrip_idem (t : text) : lstrip (lstrip t) = lstrip t.
Proof. apply lstrip_fixed, lstrip_head. Qed.

(** Dropping white space on the left leaves the last character in place. *)
Lemma lstrip_snoc (t : text) (c : N) :
  isspace c = false -> lstrip (t ++ [c]) = lstrip t ++ [c].
Proof.
  intros Hc. induction t as [|a t IH]; simpl.
  - rewrite Hc. reflexivity.
  - destruct (isspace a); [exact IH | reflexivity].
Qed.

Lemma rstrip_cons (c : N) (t : text) :
  isspace c = false -> rstrip (c :: t) = c :: rstrip t.
Proof.
  intros Hc. unfold rstrip. simpl rev.
  rewrite (lstrip_snoc (rev t) c Hc), rev_app_distr. reflexivity.
Qed.

Lemma rstrip_idem (t : text) : rstrip (rstrip t) = rstrip t.
Proof.
  unfold rstrip. rewrite rev_involutive, lstrip_idem. reflexivity.
Qed.

(** Stripping on the right keeps a text that does not start with white
    space from starting with it. *)
Lemma rstrip_head (t : text) :
  match t with [] => True | c :: _ => isspace c = false end ->
  match rstrip t with [] => True | c :: _ => isspace c = false end.
Proof.
  destruct t as [|c t]; [intros _; exact I|].
  intros Hc. rewrite (rstrip_cons c t Hc). exact Hc.
Qed.

Lemma strip_idem (t : text) : strip (strip t) = strip t.
Proof.
  unfold strip at 1.
  rewrite (lstrip_fixed (strip t)).
  - unfold strip. apply rstrip_idem.
  - unfold strip. apply rstrip_head, lstrip_head.
Qed.

(* ===================================================================== *)
(** * Facts about the text splitter *)
(* ===================================================================== *)

Module SplitterFacts.
Import Splitter.

Lemma starts_with_head (a : N) (p t : text) :
  starts_with (a :: p) t = true -> exists t', t = a :: t'.
Proof.
  destruct t as [|b t]; simpl; [discriminate|].
  intros H. apply andb_true_iff in H as [H _].
  apply N.eqb_eq in H. subst. eauto.
Qed.

Lemma occurs_In (a : N) (p t : text) : occurs (a :: p) t = true -> In a t.
Proof.
  induction t as [|b t IH].
  - simpl. discriminate.
  - intros H. cbn [occurs] in H. apply orb_true_iff in H as [H | H].
    + apply starts_with_head in H as [t' Ht]. injection Ht as <- _. now left.
    + right. auto.
Qed.

Lemma In_occurs (a : N) (t : text) : In a t -> occurs [a] t = true.
Proof.
  induction t as [|b t IH]; intros H; [destruct H|].
  cbn [occurs]. apply orb_true_iff.
  destruct H as [-> | H].
  - left. simpl. rewrite N.eqb_refl. reflexivity.
  - right. auto.
Qed.

Lemma In_tl {A} (a : A) (l : list A) : In a (tl l) -> In a l.
Proof. destruct l; simpl; auto. Qed.

(** The pieces between the occurrences of one character: the first one
    continues [cur] with a prefix of the text, the later ones lie after the
    first character of the text, and none contains the character. *)
Lemma between_char (c : N) (t : text) :
  forall cur, exists x rest,
    between [c] 0 t cur = (cur ++ x) :: rest
    /\ (exists y, t = x ++ y)
    /\ ~ In c x
    /\ Forall (fun r => ~ In c r /\ incl r (tl t)) rest.
Proof.
  induction t as [|a t IH]; intros cur.
  - exists [], []. simpl. rewrite app_nil_r. repeat split; auto.
    exists []. reflexivity.
  - cbn [between starts_with]. destruct (N.eqb_spec c a) as [<- | Hne]; simpl.
    + destruct (IH []) as (x & rest & Hb & [y Hy] & Hx & Hrest).
      exists [], (x :: rest). rewrite app_nil_r, Hb. simpl.
      repeat split; auto.
      * exists (c :: t). reflexivity.
      * constructor.
        -- split; [exact Hx|]. subst t. intros b Hb'. apply in_or_app. now left.
        -- eapply Forall_impl; [|exact Hrest]. simpl.
           intros r [Hr1 Hr2]. split; [exact Hr1|].
           intros b Hb'. apply In_tl. auto.
    + destruct (IH (cur ++ [a])) as (x & rest & Hb & [y Hy] & Hx & Hrest).
      exists (a :: x), rest. rewrite Hb, <- app_assoc. simpl.
      repeat split; auto.
      * exists y. subst t. reflexivity.
      * intros [H | H]; [congruence | auto].
      * eapply Forall_impl; [|exact Hrest]. simpl.
        intros r [Hr1 Hr2]. split; [exact Hr1|].
        intros b Hb'. apply In_tl. auto.
Qed.

(** A piece cut at a character does not contain it after its first
    character, and its tail lies in the tail of the text. *)
Lemma split_keep_char (c : N) (t q : text) :
  In q (split_keep [c] t) -> ~ In c (tl q) /\ incl (tl q) (tl t).
Proof.
  unfold split_keep.
  destruct (between_char c t []) as (x & rest & Hb & [y Hy] & Hx & Hrest).
  rewrite Hb. simpl app. intros Hq.
  apply filter_In in Hq as [Hq _]. destruct Hq as [<- | Hq].
  - split.
    + intros H. apply Hx, In_tl, H.
    + subst t. destruct x as [|a x]; simpl; [intros b []|].
      intros b Hb'. apply in_or_app. now left.
  - apply in_map_iff in Hq as (r & <- & Hr).
    rewrite Forall_forall in Hrest. destruct (Hrest r Hr) as [H1 H2].
    simpl. split; assumption.
Qed.

Lemma clean_app (used1 used2 : list N) (t : text) :
  clean used1 t -> clean used2 t -> clean (used1 ++ used2) t.
Proof.
  intros H1 H2 u Hu. apply in_app_or in Hu as [Hu | Hu]; auto.
Qed.

Lemma clean_incl (used : list N) (t q : text) :
  incl (tl q) (tl t) -> clean used t -> clean used q.
Proof. intros Hi Hc u Hu Hq. exact (Hc u Hu (Hi u Hq)). Qed.

Section Bounds.

Variable cfg : Config.
Hypothesis overlap_nonneg : 0 <= chunk_overlap cfg.

Lemma join_docs_fits (cur : list text) :
  len (List.concat cur) <= chunk_size cfg -> Forall (fits cfg) (join_docs cur).
Proof.
  intros H. unfold join_docs.
  destruct (truthy (strip (List.concat cur))); constructor; [|constructor].
  unfold fits. pose proof (len_strip (List.concat cur)). lia.
Qed.

(** The [while] loop never runs out of pieces, and what it keeps fits the
    overlap and leaves room for the next piece. *)
Lemma shrink_spec (len_d : Z) (cur : list text) :
  forall total, total = len (List.concat cur) ->
  exists kept total',
    shrink cfg len_d cur total = Some (kept, total')
    /\ total' = len (List.concat kept)
    /\ total' <= chunk_overlap cfg
    /\ (total' + len_d <= chunk_size cfg \/ total' = 0)
    /\ (exists dropped, cur = dropped ++ kept).
Proof.
  induction cur as [|d0 rest IH]; intros total Ht.
  - simpl in Ht. change (len (@nil N)) with 0 in Ht. subst total.
    exists [], 0. cbn [shrink].
    replace (0 >? chunk_overlap cfg) with false by lia.
    rewrite andb_false_r. simpl.
    repeat split; auto. exists []. reflexivity.
  - cbn [shrink].
    destruct ((total >? chunk_overlap cfg)
              || ((total + len_d >? chunk_size cfg) && (total >? 0))) eqn:Hc.
    + destruct (IH (total - len d0)) as (kept & total' & Hs & H1 & H2 & H3 & [dr Hdr]).
      { subst total. simpl. rewrite len_app. lia. }
      exists kept, total'. repeat split; auto.
      exists (d0 :: dr). subst rest. reflexivity.
    + exists (d0 :: rest), total.
      pose proof (len_nonneg (List.concat (d0 :: rest))).
      repeat split; auto; try lia.
      exists []. reflexivity.
Qed.

Lemma concat_snoc (l : list text) (d : text) :
  List.concat (l ++ [d]) = List.concat l ++ d.
Proof. rewrite concat_app. simpl. rewrite app_nil_r. reflexivity. Qed.

(** Merging pieces that are each shorter than the budget returns, and
    every chunk it makes fits the budget. *)
Lemma merge_loop_spec (splits : list text) :
  Forall (small cfg) splits ->
  forall docs cur total,
    Forall (fits cfg) docs ->
    total = len (List.concat cur) ->
    total <= chunk_size cfg ->
    exists out, merge_loop cfg splits docs cur total = Some out /\ Forall (fits cfg) out.
Proof.
  induction 1 as [|d splits Hd Hs IH]; intros docs cur total Hdocs Ht Hle.
  - cbn [merge_loop]. eexists. split; [reflexivity|].
    apply Forall_app. split; [assumption|].
    apply join_docs_fits. lia.
  - cbn [merge_loop]. unfold small in Hd.
    case_if Hc.
    + destruct (shrink_spec (len d) cur total Ht)
        as (kept & total' & -> & H1 & H2 & H3 & _).
      cbv beta iota. apply IH.
      * apply Forall_app. split; [assumption|]. apply join_docs_fits. lia.
      * rewrite concat_snoc, len_app. lia.
      * destruct H3; lia.
    + apply IH; [assumption | rewrite concat_snoc, len_app; lia |].
      apply andb_false_iff in Hc as [Hc | Hc]; [lia|].
      apply truthy_false_iff in Hc. subst cur. simpl in Ht.
      change (len (@nil N)) with 0 in Ht. lia.
Qed.


Lemma merge_splits_spec (splits : list text) :
  Forall (small cfg) splits ->
  exists out, merge_splits cfg splits = Some out /\ Forall (fits cfg) out.
Proof.
  intros H. unfold merge_splits.
  destruct splits as [|d splits].
  - exists []. split; [reflexivity | constructor].
  - apply merge_loop_spec; auto.
    inversion H as [|? ? Hd _]; subst.
    unfold small in Hd. pose proof (len_nonneg d).
    change (len (List.concat [])) with 0. lia.
Qed.

(** The loop over the pieces returns, and what it emits has a property [P]
    as soon as [P] holds of every chunk within the budget and of whatever
    comes out of the pieces that are too long. *)
Lemma split_loop_spec (P : text -> Prop)
    (deeper : option (text -> option (list text))) (splits : list text) :
  (forall c, fits cfg c -> P c) ->
  Forall (fun s =>
            chunk_size cfg <= len s ->
            match deeper with
            | None => P s
            | Some split_rec => exists cs, split_rec s = Some cs /\ Forall P cs
            end) splits ->
  forall good final,
    Forall (small cfg) good -> Forall P final ->
    exists out, split_loop cfg deeper splits good final = Some out /\ Forall P out.
Proof.
  intros HP. induction 1 as [|s splits Hs _ IH]; intros good final Hg Hf.
  - cbn [split_loop]. destruct (merge_splits_spec good Hg) as (m & -> & Hm).
    destruct (truthy good); eexists; (split; [reflexivity|]); auto.
    apply Forall_app. split; [assumption|].
    eapply Forall_impl; [|exact Hm]. exact HP.
  - cbn [split_loop]. case_if Hlt.
    + apply IH; [|assumption].
      apply Forall_app. split; [assumption|].
      constructor; [unfold small; lia | constructor].
    + assert (Hbig : chunk_size cfg <= len s) by lia.
      specialize (Hs Hbig).
      assert (Hfinal1 : exists final1,
                 (if truthy good
                  then option_map (app final) (merge_splits cfg good)
                  else Some final) = Some final1 /\ Forall P final1).
      { destruct (merge_splits_spec good Hg) as (m & -> & Hm).
        destruct (truthy good); eexists; (split; [reflexivity|]); auto.
        apply Forall_app. split; [assumption|].
        eapply Forall_impl; [|exact Hm]. exact HP. }
      destruct Hfinal1 as (final1 & -> & Hf1).
      destruct deeper as [split_rec|].
      * destruct Hs as (cs & -> & Hcs).
        apply IH; [constructor|]. apply Forall_app. split; assumption.
      * apply IH; [constructor|]. apply Forall_app. split; [assumption|].
        constructor; [assumption | constructor].
Qed.

(** The recursive split over separators of one character each returns, and a
    chunk beyond the budget contains none of the separators after its first
    character.  [used] are the separators of higher priority at which the
    text was already cut. *)
Lemma split_text_rec_chars (c : N) (chars : list N) :
  forall used t,
    clean used t ->
    exists chunks,
      split_text_rec cfg (List.map (fun a => [a]) (c :: chars)) t = Some chunks
      /\ Forall (fun q => fits cfg q \/ clean (used ++ c :: chars) q) chunks.
Proof.
  revert c. induction chars as [|c2 chars IH]; intros c used t Hclean.
  - (* the last separator: pieces that stay too long are emitted *)
    assert (Hloop : exists chunks,
               split_loop cfg None (split_keep [c] t) [] [] = Some chunks
               /\ Forall (fun q => fits cfg q \/ clean (used ++ [c]) q) chunks).
    { apply split_loop_spec;
        [intros q Hq; now left | | constructor | constructor].
      apply Forall_forall. intros q Hq _. right.
      destruct (split_keep_char c t q Hq) as [H1 H2].
      apply clean_app; [exact (clean_incl used t q H2 Hclean)|].
      intros u [<- | []]. exact H1. }
    cbn [split_text_rec List.map truthy negb].
    destruct (occurs [c] t); exact Hloop.
  - cbn [split_text_rec List.map truthy negb].
    destruct (occurs [c] t) eqn:Hocc.
    + apply split_loop_spec;
        [intros q Hq; now left | | constructor | constructor].
      apply Forall_forall. intros q Hq _.
      destruct (split_keep_char c t q Hq) as [H1 H2].
      destruct (IH c2 (used ++ [c]) q) as (cs & Hcs & HP).
      { apply clean_app; [exact (clean_incl used t q H2 Hclean)|].
        intros u [<- | []]. exact H1. }
      exists cs. split; [exact Hcs|].
      rewrite <- app_assoc in HP. exact HP.
    + destruct (IH c2 (used ++ [c]) t) as (cs & Hcs & HP).
      { apply clean_app; [exact Hclean|].
        intros u [<- | []] Hin.
        apply In_tl, In_occurs in Hin. congruence. }
      exists cs. split; [exact Hcs|].
      rewrite <- app_assoc in HP. exact HP.
Qed.

End Bounds.

(** A text without the first characters of the separators after its own
    first character cannot be cut at any of them. *)
Lemma clean_unsplittable (chars : list N) (seps : list text) (t : text) :
  Forall (fun sep => exists a p, sep = a :: p /\ In a chars) seps ->
  clean chars t -> unsplittable seps t.
Proof.
  intros Hseps Hclean. unfold unsplittable.
  eapply Forall_impl; [|exact Hseps].
  intros sep (a & p & -> & Ha).
  destruct (occurs (a :: p) (tl t)) eqn:Hocc; [|reflexivity].
  apply occurs_In in Hocc. destruct (Hclean a Ha Hocc).
Qed.

(** The splitter of the script returns on every text; a chunk it makes
    either fits the budget or cannot be cut at any separator. *)
Lemma text_splitter_spec (t : text) :
  exists chunks,
    split_text text_splitter t = Some chunks
    /\ Forall (fun c => fits text_splitter c
                        \/ unsplittable (separators text_splitter) c) chunks.
Proof.
  assert (Hov : 0 <= chunk_overlap text_splitter) by (cbn; lia).
  assert (Hseps : Forall (fun sep => exists a p, sep = a :: p /\ In a [10; 46; 44]%N)
                         (separators text_splitter)).
  { repeat constructor; do 2 eexists; (split; [reflexivity|]); cbn; auto. }
  assert (Hrec : forall q, exists chunks,
             split_text_rec text_splitter [LF; py "."; py ","] q = Some chunks
             /\ Forall (fun c => fits text_splitter c
                                 \/ unsplittable (separators text_splitter) c) chunks).
  { intros q.
    destruct (split_text_rec_chars text_splitter Hov 10%N [46; 44]%N [] q)
      as (chunks & Hs & Hc); [intros u []|].
    exists chunks. split; [exact Hs|].
    eapply Forall_impl; [|exact Hc].
    intros c [Hfit | Hclean]; [now left | right].
    exact (clean_unsplittable _ _ _ Hseps Hclean). }
  unfold split_text.
  change (separators text_splitter) with [LF ++ LF; LF; py "."; py ","].
  cbn [split_text_rec].
  change (negb (truthy (LF ++ LF))) with false. cbv iota.
  destruct (occurs (LF ++ LF) t).
  - apply split_loop_spec; [exact Hov | intros c Hc; now left | | constructor
                            | constructor].
    apply Forall_forall. intros q _ _. apply Hrec.
  - apply Hrec.
Qed.

(** The chunks of a list of documents are the chunks of its documents, one
    document after the other. *)
Lemma split_documents_app (cfg : Config) (data1 data2 : list Document) :
  split_documents cfg (data1 ++ data2)
  = match split_documents cfg data1, split_documents cfg data2 with
    | Some chunks1, Some chunks2 => Some (chunks1 ++ chunks2)
    | _, _ => None
    end.
Proof.
  induction data1 as [|d data1 IH].
  - cbn [app split_documents]. destruct (split_documents cfg data2); reflexivity.
  - cbn [app split_documents]. rewrite IH.
    destruct (split_text cfg (page_content d)); [|reflexivity].
    destruct (split_documents cfg data1); [|reflexivity].
    destruct (split_documents cfg data2); [|reflexivity].
    rewrite app_assoc. reflexivity.
Qed.

(** Splitting a list of documents returns; every chunk has the metadata of
    one of the documents and is one of the chunks of its text. *)
Lemma split_documents_spec (data : list Document) :
  exists docs,
    split_documents text_splitter data = Some docs
    /\ Forall (fun c => exists d pieces,
                 In d data /\ metadata c = metadata d
                 /\ split_text text_splitter (page_content d) = Some pieces
                 /\ In (page_content c) pieces) docs.
Proof.
  induction data as [|d data (docs & Hdocs & IH)].
  - exists []. split; [reflexivity | constructor].
  - destruct (text_splitter_spec (page_content d)) as (pieces & Hp & _).
    cbn [split_documents]. rewrite Hp, Hdocs.
    eexists. split; [reflexivity|].
    apply Forall_app. split.
    + apply Forall_forall. intros c Hc.
      apply in_map_iff in Hc as (piece & <- & Hpiece).
      exists d, pieces. cbn. repeat split; auto.
    + eapply Forall_impl; [|exact IH].
      intros c (d' & ps & Hin & Hm & Hs & Hc).
      exists d', ps. repeat split; auto. now right.
Qed.

End SplitterFacts.

(* ===================================================================== *)
(** * Facts about the script *)
(* ===================================================================== *)

Section ScriptFacts.

Context (E : Env).

(** The calls added by a step are the list [cs], all of the fetcher. *)
Ltac trace_of cs :=
  exists cs; split; [rewrite <- ?app_assoc; reflexivity|];
  split; [reflexivity | repeat constructor].

Lemma fetched_app (cs1 cs2 : list (Call E)) :
  fetched E (cs1 ++ cs2) = fetched E cs1 ++ fetched E cs2.
Proof. unfold fetched. apply flat_map_app. Qed.

Lemma saves_app (cs1 cs2 : list (Call E)) :
  saves E (cs1 ++ cs2) = saves E cs1 ++ saves E cs2.
Proof. unfold saves. apply flat_map_app. Qed.

Lemma downstream_app (cs1 cs2 : list (Call E)) :
  downstream_calls E (cs1 ++ cs2) = downstream_calls E cs1 ++ downstream_calls E cs2.
Proof. unfold downstream_calls. apply filter_app. Qed.

Lemma fallback_notices_app (m1 m2 : list (UiMsg)) :
  fallback_notices (m1 ++ m2) = (fallback_notices m1 + fallback_notices m2)%nat.
Proof. unfold fallback_notices. rewrite filter_app, length_app. reflexivity. Qed.

(** Calls of the fetcher save nothing and are not downstream. *)
Lemma fetch_calls_saves (cs : list (Call E)) :
  Forall (fun c => is_fetch_call E c = true) cs -> saves E cs = [].
Proof.
  induction 1 as [|c cs Hc _ IH]; [reflexivity|].
  unfold saves in *. simpl. rewrite IH.
  destruct c; try discriminate; reflexivity.
Qed.

Lemma fetch_calls_downstream (cs : list (Call E)) :
  Forall (fun c => is_fetch_call E c = true) cs -> downstream_calls E cs = [].
Proof.
  induction 1 as [|c cs Hc _ IH]; [reflexivity|].
  unfold downstream_calls in *. simpl. rewrite Hc. exact IH.
Qed.

(** What one URL of the fallback does, whatever the network and the parser
    answer: it returns, shows one message about this URL, requests this URL
    once, leaves the disk alone, and either adds nothing and reports a
    failure, or adds one document with this URL as its source and reports
    the success. *)
Lemma fetch_one_spec (url : text) (docs : list Document) (st : State E) :
  exists docs' st' m,
    fetch_one E url docs st = (Ok docs', st')
    /\ fs E st' = fs E st
    /\ ui E st' = ui E st ++ [m]
    /\ fallback_notices [m] = 0%nat
    /\ (exists cs, calls E st' = calls E st ++ cs
                   /\ fetched E cs = [url]
                   /\ Forall (fun c => is_fetch_call E c = true) cs)
    /\ ((docs' = docs /\ failure_report E url m)
        \/ (exists t, truthy (strip t) = true
                      /\ docs' = docs ++ [mkDocument t [(py "source", url)]]
                      /\ success_report url m)).
Proof.
  unfold fetch_one. run.
  destruct (requests_get E url user_agent_headers 10 (outside E st))
    as [[e | res] w] eqn:Hget.
  - run. do 3 eexists. split; [reflexivity|]. run.
    do 3 (split; [reflexivity|]).
    split; [trace_of [CallRequestsGet E url]|].
    left. split; [reflexivity|]. left. exists (LibError e). reflexivity.
  - destruct (status_code res =? 200) eqn:Hstatus; cbv [negb]; run.
    + destruct (soup_paragraphs E (res_text res) w) as [[e | ps] w'] eqn:Hsoup.
      * run. do 3 eexists. split; [reflexivity|]. run.
        do 3 (split; [reflexivity|]).
        split; [trace_of [CallRequestsGet E url; CallSoup E (res_text res)]|].
        left. split; [reflexivity|]. left. exists (LibError e). reflexivity.
      * run. destruct (truthy (strip (join (py " ") ps))) eqn:Htext; run.
        -- do 3 eexists. split; [reflexivity|]. run.
           do 3 (split; [reflexivity|]).
           split; [trace_of [CallRequestsGet E url; CallSoup E (res_text res)]|].
           right. eexists. split; [exact Htext|]. split; reflexivity.
        -- do 3 eexists. split; [reflexivity|]. run.
           do 3 (split; [reflexivity|]).
           split; [trace_of [CallRequestsGet E url; CallSoup E (res_text res)]|].
           left. split; [reflexivity|]. right. right. reflexivity.
    + do 3 eexists. split; [reflexivity|]. run.
      do 3 (split; [reflexivity|]).
      split; [trace_of [CallRequestsGet E url]|].
      left. split; [reflexivity|]. right. left.
      exists (status_code res). split; [lia | reflexivity].
Qed.

Lemma failure_not_success (url : text) (m : UiMsg) :
  failure_report E url m -> is_success m = false.
Proof. intros [(e & ->) | [(code & _ & ->) | ->]]; reflexivity. Qed.

(** The loop of the fallback over any list of URLs, from any list of
    documents collected so far. *)
Lemma fallback_loop_spec (urls : list text) :
  forall docs st,
  exists new st' msgs,
    for_each E urls (fetch_one E) docs st = (Ok (docs ++ new), st')
    /\ fs E st' = fs E st
    /\ ui E st' = ui E st ++ msgs
    /\ Forall2 (reports E) urls msgs
    /\ fallback_notices msgs = 0%nat
    /\ (exists cs, calls E st' = calls E st ++ cs
                   /\ fetched E cs = urls
                   /\ Forall (fun c => is_fetch_call E c = true) cs)
    /\ Forall (fallback_document urls) new
    /\ List.map metadata new
       = List.map (fun u => [(py "source", u)]) (loaded_urls urls msgs).
Proof.
  induction urls as [|url urls IH]; intros docs st.
  - exists [], st, []. cbn [for_each]. run. rewrite !app_nil_r.
    repeat split; auto. exists []. rewrite app_nil_r. repeat split. constructor.
  - destruct (fetch_one_spec url docs st)
      as (docs1 & st1 & m & Hone & Hfs1 & Hui1 & Hn1
          & (cs1 & Hcs1 & Hf1 & Hk1) & Hdocs1).
    destruct (IH docs1 st1)
      as (new & st2 & msgs & Hrest & Hfs2 & Hui2 & Hmsgs & Hn2
          & (cs2 & Hcs2 & Hf2 & Hk2) & Hnew & Hmeta).
    assert (Hnew' : Forall (fallback_document (url :: urls)) new).
    { eapply Forall_impl; [|exact Hnew].
      intros d (u & Hu & Hd). exists u. split; [now right | exact Hd]. }
    assert (Hnotices : fallback_notices (m :: msgs) = 0%nat).
    { change (m :: msgs) with ([m] ++ msgs).
      rewrite fallback_notices_app, Hn1, Hn2. reflexivity. }
    assert (Hcalls : exists cs, calls E st2 = calls E st ++ cs
                                /\ fetched E cs = url :: urls
                                /\ Forall (fun c => is_fetch_call E c = true) cs).
    { exists (cs1 ++ cs2).
      rewrite Hcs2, Hcs1, <- app_assoc, fetched_app, Hf1, Hf2.
      repeat split. apply Forall_app. split; assumption. }
    cbn [for_each]. unfold bind at 1. rewrite Hone, Hrest.
    destruct Hdocs1 as [(-> & Hm) | (t & Ht & -> & Hm)].
    + exists new, st2, (m :: msgs). split; [reflexivity|].
      split; [congruence|].
      split; [rewrite Hui2, Hui1, <- app_assoc; reflexivity|].
      split; [constructor; [left; exact Hm | exact Hmsgs]|].
      split; [exact Hnotices|]. split; [exact Hcalls|]. split; [exact Hnew'|].
      cbn [loaded_urls]. rewrite (failure_not_success url m Hm). exact Hmeta.
    + exists (mkDocument t [(py "source", url)] :: new), st2, (m :: msgs).
      rewrite <- app_assoc. split; [reflexivity|].
      split; [congruence|].
      split; [rewrite Hui2, Hui1, <- app_assoc; reflexivity|].
      split; [constructor; [right; exact Hm | exact Hmsgs]|].
      split; [exact Hnotices|]. split; [exact Hcalls|]. split.
      * constructor; [|exact Hnew'].
        exists url. repeat split; [now left | exact Ht].
      * cbn [loaded_urls]. rewrite Hm. cbn [is_success app List.map metadata].
        rewrite Hmeta. reflexivity.
Qed.

(** The content fetcher always returns; it leaves the disk alone, makes
    only calls of its own, and requests exactly the URLs of the list when the
    primary loader gave nothing, and none otherwise. *)
Lemma fetch_documents_spec (urls : list text) (st : State E) :
  exists data st1,
    fetch_documents E urls st = (Ok data, st1)
    /\ fs E st1 = fs E st
    /\ (exists cs, calls E st1 = calls E st ++ cs
                   /\ Forall (fun c => is_fetch_call E c = true) cs
                   /\ fetched E cs =
                      match fst (unstructured_load E urls user_agent_headers
                                                   (outside E st)) with
                      | inr (_ :: _) => []
                      | _ => urls
                      end)
    /\ (exists msgs, ui E st1 = ui E st ++ msgs
                     /\ fallback_notices msgs =
                        match fst (unstructured_load E urls user_agent_headers
                                                     (outside E st)) with
                        | inr (_ :: _) => 0%nat
                        | _ => 1%nat
                        end).
Proof.
  unfold fetch_documents. run.
  destruct (unstructured_load E urls user_agent_headers (outside E st))
    as [[e | [|d data]] w] eqn:Hload; run; cbn [truthy negb orb len].
  - (* the loader raised *)
    match goal with
    | |- context [fallback_bs4_loader E urls ?s] =>
        destruct (fallback_loop_spec urls [] s)
          as (new & st2 & msgs & Hfb & Hfs & Hui & _ & Hn
              & (cs & Hcs & Hf & Hk) & _)
    end.
    unfold fallback_bs4_loader. rewrite Hfb. cbn [fs ui calls] in *.
    exists new, st2. repeat split; auto.
    + exists (CallUnstructuredLoad E urls :: cs).
      rewrite Hcs, <- app_assoc. repeat split; [|exact Hf].
      constructor; [reflexivity | exact Hk].
    + eexists. rewrite Hui, <- !app_assoc. split; [reflexivity|].
      rewrite !fallback_notices_app, Hn.
      unfold fallback_notices. cbn [filter]. rewrite text_eqb_refl. reflexivity.
  - (* the loader returned no document *)
    match goal with
    | |- context [fallback_bs4_loader E urls ?s] =>
        destruct (fallback_loop_spec urls [] s)
          as (new & st2 & msgs & Hfb & Hfs & Hui & _ & Hn
              & (cs & Hcs & Hf & Hk) & _)
    end.
    unfold fallback_bs4_loader. rewrite Hfb. cbn [fs ui calls] in *.
    exists new, st2. repeat split; auto.
    + exists (CallUnstructuredLoad E urls :: cs).
      rewrite Hcs, <- app_assoc. repeat split; [|exact Hf].
      constructor; [reflexivity | exact Hk].
    + eexists. rewrite Hui, <- !app_assoc. split; [reflexivity|].
      rewrite !fallback_notices_app, Hn.
      unfold fallback_notices. cbn [filter]. rewrite text_eqb_refl. reflexivity.
  - (* the loader returned documents *)
    replace (Z.of_nat (List.length (d :: data)) =? 0) with false
      by (cbn [List.length]; lia).
    do 2 eexists. split; [reflexivity|]. cbn [fs ui calls].
    repeat split.
    + exists [CallUnstructuredLoad E urls]. repeat split. repeat constructor.
    + exists []. rewrite app_nil_r. split; reflexivity.
Qed.

(** The handler after the fetch.  With no document it shows the error and
    stops.  Otherwise it splits, and then either the build raises (the
    embedding client, the embedding request or the index construction) with
    the disk as it was, or the complete store is handed to [save_local]. *)
Lemma process_urls_cases (urls : list text) (st : State E)
    (data : list Document) (st1 : State E) :
  truthy urls = true ->
  fetch_documents E urls (shown E msg_loading st) = (Ok data, st1) ->
  exists r st' msgs cs,
    process_urls E urls st = (r, st')
    /\ ui E st' = ui E st1 ++ msgs /\ fallback_notices msgs = 0%nat
    /\ calls E st' = calls E st1 ++ cs /\ fetched E cs = []
    /\ ((data = [] /\ r = Ok tt /\ cs = []
         /\ st' = shown E msg_no_content (shown E (msg_loaded 0) st1))
        \/ (data <> [] /\ exists chunks,
              Splitter.split_documents text_splitter data = Some chunks
              /\ ((exists e build,
                      r = Raise e
                      /\ cs = CallSplitDocuments E data :: build
                      /\ build <> []
                      /\ Forall (fun c => is_build_call E c = true) build
                      /\ fs E st' = fs E st1)
                  \/ (exists vs w,
                         docstore E vs = chunks
                         /\ cs = [CallSplitDocuments E data;
                                  CallOpenAIEmbeddings E;
                                  CallEmbedDocuments E (List.map page_content chunks);
                                  CallFaissIndex E;
                                  CallSaveLocal E vs faiss_folder]
                         /\ fs E st' =
                            fs_set E faiss_folder
                              (snd (fst (write_folder E (index E vs) (docstore E vs)
                                                      (fs E st1 faiss_folder) w)))
                              (fs E st1)
                         /\ r = match fst (fst (write_folder E (index E vs)
                                  (docstore E vs) (fs E st1 faiss_folder) w)) with
                                | inl e => Raise (LibError e)
                                | inr _ => Ok tt
                                end)))).
Proof.
  intros Hurls Hfetch. unfold process_urls. rewrite Hurls. cbv [negb].
  unfold msg_loading in Hfetch. run. unfold shown in Hfetch. rewrite Hfetch. run.
  destruct data as [|d data].
  - change (len (@nil Document) =? 0) with true. cbv iota.
    do 4 eexists. split; [reflexivity|]. cbn [ui calls fs].
    rewrite <- app_assoc.
    split; [reflexivity|]. split; [reflexivity|].
    split; [symmetry; apply app_nil_r|]. split; [reflexivity|].
    left. repeat split. cbn [outside]. rewrite app_assoc. reflexivity.
  - replace (len (d :: data) =? 0) with false
      by (unfold len; cbn [List.length]; lia).
    destruct (SplitterFacts.split_documents_spec (d :: data)) as (chunks & Hsplit & _).
    unfold split_documents. rewrite Hsplit. run.
    destruct (openai_embeddings E (outside E st1)) as [[e | emb] w1] eqn:Hemb; run.
    { do 4 eexists. split; [reflexivity|]. cbn [ui calls fs].
      rewrite <- !app_assoc.
      split; [reflexivity|]. split; [reflexivity|].
      split; [reflexivity|]. split; [reflexivity|].
      right. split; [discriminate|]. exists chunks. split; [reflexivity|].
      left. exists (LibError e), [CallOpenAIEmbeddings E].
      repeat split; try discriminate. repeat constructor. }
    unfold FAISS_from_documents. run.
    destruct (embed_documents E emb (List.map page_content chunks) w1)
      as [[e | vectors] w2] eqn:Hvec; run.
    { do 4 eexists. split; [reflexivity|]. cbn [ui calls fs].
      rewrite <- !app_assoc.
      split; [reflexivity|]. split; [reflexivity|].
      split; [reflexivity|]. split; [reflexivity|].
      right. split; [discriminate|]. exists chunks. split; [reflexivity|].
      left. exists (LibError e),
        [CallOpenAIEmbeddings E; CallEmbedDocuments E (List.map page_content chunks)].
      repeat split; try discriminate. repeat constructor. }
    destruct (faiss_index E vectors w2) as [[e | idx] w3] eqn:Hidx; run.
    { do 4 eexists. split; [reflexivity|]. cbn [ui calls fs].
      rewrite <- !app_assoc.
      split; [reflexivity|]. split; [reflexivity|].
      split; [reflexivity|]. split; [reflexivity|].
      right. split; [discriminate|]. exists chunks. split; [reflexivity|].
      left. exists (LibError e),
        [CallOpenAIEmbeddings E; CallEmbedDocuments E (List.map page_content chunks);
         CallFaissIndex E].
      repeat split; try discriminate. repeat constructor. }
    unfold save_local. cbn [index docstore fs outside ui calls].
    destruct (write_folder E idx chunks (fs E st1 faiss_folder) w3)
      as [[[e | []] new] w4] eqn:Hwrite; run.
    + do 4 eexists. split; [reflexivity|]. cbn [ui calls fs].
      rewrite <- !app_assoc.
      split; [reflexivity|]. split; [reflexivity|].
      split; [reflexivity|]. split; [reflexivity|].
      right. split; [discriminate|]. exists chunks. split; [reflexivity|].
      right. exists (mkVectorStore E idx chunks), w3.
      cbn [index docstore]. rewrite Hwrite. repeat split.
    + do 4 eexists. split; [reflexivity|]. cbn [ui calls fs].
      rewrite <- !app_assoc.
      split; [reflexivity|]. split; [reflexivity|].
      split; [reflexivity|]. split; [reflexivity|].
      right. split; [discriminate|]. exists chunks. split; [reflexivity|].
      right. exists (mkVectorStore E idx chunks), w3.
      cbn [index docstore]. rewrite Hwrite. repeat split.
Qed.

End ScriptFacts.

(* ===================================================================== *)
(** * The properties of the specification *)
(* ===================================================================== *)

Section Claims.

Context (E : Env).

(** C1.  For every list of URLs given to the "Process URLs" handler: when the
    primary loader returns at least one document, the handler makes no
    request of the fallback fetcher and never announces the fallback; when it
    returns no document or raises, the fallback is announced once and
    requests every URL of the list once, in order. *)
Theorem fallback_only_when_primary_empty (urls : list text) (st : State E) :
  let st' := snd (process_urls E urls st) in
  match fst (unstructured_load E urls user_agent_headers (outside E st)) with
  | inr (_ :: _) =>
      fetched E (calls E st') = fetched E (calls E st)
      /\ fallback_notices (ui E st') = fallback_notices (ui E st)
  | _ =>
      fetched E (calls E st') = fetched E (calls E st) ++ urls
      /\ fallback_notices (ui E st')
         = (fallback_notices (ui E st) + if truthy urls then 1 else 0)%nat
  end.
Proof.
  destruct urls as [|u urls].
  - (* no URL: the handler stops at its guard *)
    unfold process_urls. cbn [truthy negb]. run.
    assert (Hn : fallback_notices (ui E st ++ [msg_no_url])
                 = fallback_notices (ui E st)).
    { rewrite fallback_notices_app.
      change (fallback_notices [msg_no_url]) with 0%nat. apply Nat.add_0_r. }
    unfold msg_no_url in Hn.
    destruct (fst (unstructured_load E [] user_agent_headers (outside E st)))
      as [e | [|d l]]; rewrite ?app_nil_r, Hn; split; auto.
  - destruct (fetch_documents_spec E (u :: urls) (shown E msg_loading st))
      as (data & st1 & Hfetch & _ & (cs & Hcs & _ & Hfetched)
          & (msgs & Hui & Hn)).
    destruct (process_urls_cases E (u :: urls) st data st1 eq_refl Hfetch)
      as (r & st' & msgs2 & cs2 & Hp & Hui2 & Hn2 & Hcs2 & Hf2 & _).
    rewrite Hp. cbn [snd shown outside ui calls truthy] in *.
    rewrite Hcs2, Hcs, Hui2, Hui, !fetched_app, Hf2, Hfetched,
      !fallback_notices_app, Hn, Hn2, !app_nil_r.
    cbn [fallback_notices filter List.length].
    destruct (fst (unstructured_load E (u :: urls) user_agent_headers (outside E st)))
      as [e | [|d l]]; rewrite ?app_nil_r, ?Nat.add_0_r; split; auto.
Qed.

(** C2.  When the fetch of a "Process URLs" action ends with no document
    (primary loader and fallback together), the handler shows the error and
    returns: the disk is as before, and nothing after fetching was called (no
    chunking, no embedding, no index construction, no persistence). *)
Theorem no_documents_no_index (urls : list text) (st st1 : State E) :
  truthy urls = true ->
  fetch_documents E urls (shown E msg_loading st) = (Ok [], st1) ->
  exists st',
    process_urls E urls st = (Ok tt, st')
    /\ ui E st' = ui E st1 ++ [msg_loaded 0; msg_no_content]
    /\ fs E st' = fs E st
    /\ downstream_calls E (calls E st') = downstream_calls E (calls E st)
    /\ saves E (calls E st') = saves E (calls E st).
Proof.
  intros Hurls Hfetch.
  destruct (fetch_documents_spec E urls (shown E msg_loading st))
    as (data & st1' & Hfetch' & Hfs & (cs & Hcs & Hk & _) & _).
  rewrite Hfetch in Hfetch'. injection Hfetch' as <- <-.
  destruct (process_urls_cases E urls st [] st1 Hurls Hfetch)
    as (r & st' & msgs2 & cs2 & Hp & _ & _ & _ & _ & Hcase).
  destruct Hcase as [(_ & -> & -> & ->) | (Hne & _)]; [|congruence].
  eexists. split; [exact Hp|].
  cbn [shown fs ui calls] in *. rewrite <- app_assoc, Hcs, downstream_app, saves_app,
    (fetch_calls_downstream E cs Hk), (fetch_calls_saves E cs Hk), !app_nil_r.
  repeat split. exact Hfs.
Qed.

(** C3.  A question asked when nothing exists at the index path is answered
    by the message "FAISS index not found. Please process URLs first.": the
    handler returns without raising, calls nothing, and leaves the disk and
    everything else as they were. *)
Theorem query_without_index (model : llm E) (question : text) (st : State E) :
  fs E st faiss_folder = None ->
  answer_query E model question st = (Ok tt, shown E msg_no_index st).
Proof.
  intros Habsent. unfold answer_query, os_path_exists. run.
  rewrite Habsent. reflexivity.
Qed.

(** C4.  Every document of the fallback fetcher has one of the URLs as its
    source.  Splitting returns for every list of documents, and the chunks of
    each document of the list stand at its place in the result, are the
    chunks of its own text and carry its own metadata, hence its own source,
    whatever the documents before and after it are.  The store built from
    the chunks keeps exactly these chunks, metadata included. *)
Theorem chunks_keep_source (urls : list text)
    (before : list Document) (d : Document) (after : list Document)
    (emb : embeddings E) (st : State E) :
  match fst (fallback_bs4_loader E urls st) with
  | Ok docs => Forall (fun d => exists u, In u urls /\ source d = Some u) docs
  | Raise _ => False
  end
  /\ exists chunks1 pieces own chunks2,
       Splitter.split_documents text_splitter before = Some chunks1
       /\ Splitter.split_text text_splitter (page_content d) = Some pieces
       /\ Splitter.split_documents text_splitter after = Some chunks2
       /\ Splitter.split_documents text_splitter (before ++ d :: after)
          = Some (chunks1 ++ own ++ chunks2)
       /\ List.map page_content own = pieces
       /\ Forall (fun c => metadata c = metadata d /\ source c = source d) own
       /\ Forall (chunk_of (before ++ d :: after)) (chunks1 ++ own ++ chunks2)
       /\ match fst (FAISS_from_documents E (chunks1 ++ own ++ chunks2) emb st) with
          | Ok vs => docstore E vs = chunks1 ++ own ++ chunks2
          | Raise _ => True
          end.
Proof.
  split.
  { destruct (fallback_loop_spec E urls [] st)
      as (new & st' & msgs & Hrun & _ & _ & _ & _ & _ & Hdocs & _).
    unfold fallback_bs4_loader. rewrite Hrun. cbn [fst app].
    eapply Forall_impl; [|exact Hdocs].
    intros c (u & Hu & Hmeta & _). exists u. split; [exact Hu|].
    unfold source. rewrite Hmeta. cbn [dict_get].
    rewrite text_eqb_refl. reflexivity. }
  destruct (SplitterFacts.split_documents_spec before) as (chunks1 & Hbefore & _).
  destruct (SplitterFacts.split_documents_spec after) as (chunks2 & Hafter & _).
  destruct (SplitterFacts.text_splitter_spec (page_content d)) as (pieces & Hpieces & _).
  destruct (SplitterFacts.split_documents_spec (before ++ d :: after))
    as (chunks & Hall & Hparents).
  set (own := List.map (fun piece => mkDocument piece (metadata d)) pieces).
  assert (Hwhole : Splitter.split_documents text_splitter (before ++ d :: after)
                   = Some (chunks1 ++ own ++ chunks2)).
  { rewrite SplitterFacts.split_documents_app, Hbefore.
    cbn [Splitter.split_documents]. rewrite Hpieces, Hafter. reflexivity. }
  rewrite Hall in Hwhole. injection Hwhole as ->.
  exists chunks1, pieces, own, chunks2.
  split; [exact Hbefore|]. split; [exact Hpieces|]. split; [exact Hafter|].
  split; [exact Hall|]. split.
  { unfold own. rewrite map_map. cbn [page_content]. apply map_id. }
  split.
  { unfold own. apply Forall_forall. intros c Hc.
    apply in_map_iff in Hc as (piece & <- & _). split; reflexivity. }
  split.
  - eapply Forall_impl; [|exact Hparents].
    intros c (d' & _ & Hin & Hmeta & _). exists d'.
    unfold source. rewrite Hmeta. auto.
  - unfold FAISS_from_documents. run.
    destruct (embed_documents E emb
                (List.map page_content (chunks1 ++ own ++ chunks2)) (outside E st))
      as [[e | vectors] w]; run; [exact I|].
    destruct (faiss_index E vectors w) as [[e | idx] w']; run; [exact I|].
    reflexivity.
Qed.


(** C6.  With the one URL https://example.com/a, a primary loader that
    raises, and a page served with status 200 whose paragraphs are "Hello."
    and "World.", the fetch requests this URL once and returns exactly one
    document, with content "Hello. World." and this URL as its source. *)
Theorem hello_world_scenario (st : State E) (e : lib_exn E) (w1 w2 w3 : world E)
    (body : text) :
  unstructured_load E [Demo.url_a] user_agent_headers (outside E st) = (inl e, w1) ->
  requests_get E Demo.url_a user_agent_headers 10 w1 = (inr (mkResponse 200 body), w2) ->
  soup_paragraphs E body w2 = (inr [py "Hello."; py "World."], w3) ->
  fst (fetch_documents E [Demo.url_a] st)
    = Ok [mkDocument (py "Hello. World.") [(py "source", py "https://example.com/a")]]
  /\ fetched E (calls E (snd (fetch_documents E [Demo.url_a] st)))
     = fetched E (calls E st) ++ [py "https://example.com/a"].
Proof.
  intros Hload Hget Hsoup.
  unfold fetch_documents, fallback_bs4_loader. run. rewrite Hload. run.
  cbn [truthy negb orb for_each]. unfold fetch_one. run.
  rewrite Hget. run. cbn [status_code res_text].
  change (negb (200 =? 200)) with false. run. rewrite Hsoup. run.
  replace (truthy (strip (join (py " ") [py "Hello."; py "World."]))) with true
    by (vm_compute; reflexivity).
  run. split.
  - reflexivity.
  - rewrite <- !app_assoc, fetched_app. reflexivity.
Qed.

(** C7.  Whatever the network and the parser do for each URL (an exception,
    a status other than 200, no paragraph text, or a page), the fallback
    fetcher returns without raising, has requested every URL of the list
    once and in order, has shown exactly one message for each URL, about that
    URL, and has left the disk alone; the documents it returns are, in
    order, those of the URLs whose message is the success, so a URL that
    fails costs no other URL its document. *)
Theorem fallback_survives_failures (urls : list text) (st : State E) :
  exists docs st' msgs,
    fallback_bs4_loader E urls st = (Ok docs, st')
    /\ fetched E (calls E st') = fetched E (calls E st) ++ urls
    /\ ui E st' = ui E st ++ msgs
    /\ Forall2 (reports E) urls msgs
    /\ List.map metadata docs
       = List.map (fun u => [(py "source", u)]) (loaded_urls urls msgs)
    /\ Forall (fallback_document urls) docs
    /\ fs E st' = fs E st.
Proof.
  destruct (fallback_loop_spec E urls [] st)
    as (new & st' & msgs & Hrun & Hfs & Hui & Hmsgs & _
        & (cs & Hcs & Hfetched & _) & Hdocs & Hmeta).
  exists new, st', msgs. unfold fallback_bs4_loader. rewrite Hrun.
  split; [reflexivity|]. split; [rewrite Hcs, fetched_app, Hfetched; reflexivity|].
  repeat split; assumption.
Qed.


(** C9.  The URLs the side bar hands on are the non-empty stripped values
    of its three fields; and when every field is empty or white space only,
    there is no URL, and the "Process URLs" handler shows "Please enter at
    least one valid URL." and returns with no call made and the disk, like
    everything else, as it was. *)
Theorem blank_urls_rejected (inp : Inputs) (st : State E) :
  Forall (entered inp) (sidebar_urls inp)
  /\ ((forall i, (1 <= i <= 3)%nat -> forallb isspace (url_input inp i) = true) ->
      sidebar_urls inp = []
      /\ process_urls E (sidebar_urls inp) st = (Ok tt, shown E msg_no_url st)).
Proof.
  assert (Hentered : forall i, (1 <= i <= 3)%nat ->
            truthy (strip (url_input inp i)) = true ->
            entered inp (strip (url_input inp i))).
  { intros i Hi Ht. split; [exact Ht|]. split; [apply strip_idem|].
    exists i. split; [exact Hi | reflexivity]. }
  split.
  - unfold sidebar_urls. cbn [fold_left].
    destruct (truthy (strip (url_input inp 1))) eqn:H1;
      destruct (truthy (strip (url_input inp 2))) eqn:H2;
      destruct (truthy (strip (url_input inp 3))) eqn:H3;
      cbn [app]; repeat constructor; apply Hentered; auto; lia.
  - intros Hblank.
    assert (Hnone : sidebar_urls inp = []).
    { unfold sidebar_urls. cbn [fold_left].
      rewrite !strip_blank by (apply Hblank; lia). reflexivity. }
    split; [exact Hnone|]. rewrite Hnone. reflexivity.
Qed.

(** C10.  The handler of a question never writes the index folder: whatever
    the outcome (no index, a failure while loading or answering, or an
    answer), the disk after it is the disk before it, and [save_local] was
    not called. *)
Theorem query_leaves_disk (model : llm E) (question : text) (st : State E) :
  let st' := snd (answer_query E model question st) in
  fs E st' = fs E st /\ saves E (calls E st') = saves E (calls E st).
Proof.
  cbv zeta. unfold answer_query, os_path_exists, load_local. run.
  destruct (fs E st faiss_folder) as [f|]; cbv [negb]; run;
    [|rewrite ?saves_app; split; reflexivity].
  destruct (openai_embeddings E (outside E st)) as [[e | emb] w1]; run;
    [rewrite ?saves_app, ?app_nil_r; split; reflexivity|].
  destruct (read_folder E _ emb true w1) as [[e | [idx docs]] w2]; run;
    [rewrite ?saves_app, ?app_nil_r; split; reflexivity|].
  cbn [index docstore].
  destruct (chain_from_llm E model idx docs w2) as [[e | qa] w3]; run;
    [rewrite ?saves_app, ?app_nil_r; split; reflexivity|].
  destruct (chain_call E qa question w3) as [[e | result] w4]; run;
    rewrite ?saves_app, ?app_nil_r; split; reflexivity.
Qed.

End Claims.

(* ===================================================================== *)
(** * The properties on the concrete environment *)
(* ===================================================================== *)


(** C2 on an environment where nothing can be fetched. *)
Lemma no_documents_no_index_offline :
  exists st',
    process_urls Demo.offline [Demo.url_a] (Demo.start Demo.offline tt) = (Ok tt, st')
    /\ ui Demo.offline st'
       = ui Demo.offline
            (snd (fetch_documents Demo.offline [Demo.url_a]
                    (shown Demo.offline msg_loading (Demo.start Demo.offline tt))))
         ++ [msg_loaded 0; msg_no_content]
    /\ fs Demo.offline st' = fs Demo.offline (Demo.start Demo.offline tt)
    /\ downstream_calls Demo.offline (calls Demo.offline st')
       = downstream_calls Demo.offline (calls Demo.offline (Demo.start Demo.offline tt))
    /\ saves Demo.offline (calls Demo.offline st')
       = saves Demo.offline (calls Demo.offline (Demo.start Demo.offline tt)).
Proof.
  apply (no_documents_no_index Demo.offline [Demo.url_a]
           (Demo.start Demo.offline tt)
           (snd (fetch_documents Demo.offline [Demo.url_a]
                   (shown Demo.offline msg_loading (Demo.start Demo.offline tt))))).
  - reflexivity.
  - vm_compute. reflexivity.
Defined.

(** C3 on an empty disk. *)
Lemma query_without_index_fresh :
  answer_query Demo.online tt (py "What is X?") (Demo.start Demo.online tt)
  = (Ok tt, shown Demo.online msg_no_index (Demo.start Demo.online tt)).
Proof.
  apply (query_without_index Demo.online tt (py "What is X?")
           (Demo.start Demo.online tt)).
  reflexivity.
Defined.

(** C6 on the environment that serves the page of the scenario. *)
Lemma hello_world_online :
  fst (fetch_documents Demo.online [Demo.url_a] (Demo.start Demo.online tt))
    = Ok [mkDocument (py "Hello. World.") [(py "source", py "https://example.com/a")]]
  /\ fetched Demo.online
       (calls Demo.online
          (snd (fetch_documents Demo.online [Demo.url_a] (Demo.start Demo.online tt))))
     = fetched Demo.online (calls Demo.online (Demo.start Demo.online tt))
       ++ [py "https://example.com/a"].
Proof.
  apply (hello_world_scenario Demo.online (Demo.start Demo.online tt)
           (py "unstructured is not installed") tt tt tt
           (py "Hello." ++ LF ++ py "World.")).
  - reflexivity.
  - vm_compute. reflexivity.
  - vm_compute. reflexivity.
Defined.


(** C9 on a side bar whose second field holds three spaces and whose other
    fields are empty. *)
Lemma blank_urls_rejected_spaces :
  sidebar_urls Demo.blank = []
  /\ process_urls Demo.offline (sidebar_urls Demo.blank) (Demo.start Demo.offline tt)
     = (Ok tt, shown Demo.offline msg_no_url (Demo.start Demo.offline tt)).
Proof.
  apply (proj2 (blank_urls_rejected Demo.offline Demo.blank
                  (Demo.start Demo.offline tt))).
  intros i _. unfold Demo.blank, url_input.
  destruct (Nat.eqb i 2); vm_compute; reflexivity.
Defined.

(* ===================================================================== *)
(** * Runs of the model *)
(* ===================================================================== *)

(** A text without any separator comes back whole, however long it is. *)
Example split_no_separator :
  Splitter.split_text text_splitter (repeat 97%N 1200) = Some [repeat 97%N 1200].
Proof. vm_compute. reflexivity. Qed.

(** A period in the middle: two chunks, the period at the start of the
    second. *)
Example split_at_period :
  Splitter.split_text text_splitter
    (repeat 97%N 600 ++ py "." ++ repeat 98%N 600)
  = Some [repeat 97%N 600; py "." ++ repeat 98%N 600].
Proof. vm_compute. reflexivity. Qed.

(** Consecutive chunks share the pieces that fit the overlap. *)
Example split_with_overlap :
  Splitter.split_text (Splitter.mkConfig [py "."] 10 5) (py "aaa.bbb.ccc.ddd")
  = Some [py "aaa.bbb"; py ".bbb.ccc"; py ".ccc.ddd"].
Proof. vm_compute. reflexivity. Qed.

(** A piece that is too long is cut at the next separator of the list. *)
Example split_recursive :
  Splitter.split_text (Splitter.mkConfig [py "."; py ","] 10 3)
    (py "aaa.bbb,ccc.dddddddddddddddddd,eee.f  .g")
  = Some [py "aaa"; py ".bbb,ccc"; py ".dddddddddddddddddd"; py ",eee"; py ".f  .g"].
Proof. vm_compute. reflexivity. Qed.

(** Processing the page of the scenario persists one chunk with its
    source. *)
Example online_run_persists :
  fs Demo.online
     (snd (process_urls Demo.online [Demo.url_a] (Demo.start Demo.online tt)))
     faiss_folder
  = Some ([13%nat], [mkDocument (py "Hello. World.") [(py "source", Demo.url_a)]]).
Proof. vm_compute. reflexivity. Qed.

(** A run of the whole script with the button pressed and a question in the
    box: the index is built, then the question is answered from it. *)
Example script_run_answers :
  let st := snd (script Demo.online
                   (mkInputs (fun i => if Nat.eqb i 1
                                       then py "  https://example.com/a "
                                       else [])
                             true (py "What is X?"))
                   (Demo.start Demo.online tt)) in
  last (ui Demo.online st) (UiWrite [])
  = UiWrite [py "**Sources:**"; py "https://example.com/a"].
Proof. vm_compute. reflexivity. Qed.

(** A page that is not found costs the other page nothing. *)
Example one_page_missing :
  fst (fallback_bs4_loader Demo.online [py "https://example.com/b"; Demo.url_a]
         (Demo.start Demo.online tt))
  = Ok [mkDocument (py "Hello. World.") [(py "source", Demo.url_a)]].
Proof. vm_compute. reflexivity. Qed.

(* ===================================================================== *)
(** * Further facts about the handlers *)
(* ===================================================================== *)

Section HandlerFacts.

Context (E : Env).

Lemma loads_app (cs1 cs2 : list (Call E)) :
  loads E (cs1 ++ cs2) = loads E cs1 ++ loads E cs2.
Proof. unfold loads. apply flat_map_app. Qed.

(** The messages of the fallback are warnings, errors and successes. *)
Lemma reports_kind (url : text) (m : UiMsg) :
  reports E url m -> is_saved_msg m = false /\ is_write m = false.
Proof.
  intros [[(e & ->) | [(code & _ & ->) | ->]] | ->]; split; reflexivity.
Qed.

Lemma reports_kinds (urls : list text) (msgs : list UiMsg) :
  Forall2 (reports E) urls msgs ->
  Forall (fun m => is_saved_msg m = false /\ is_write m = false) msgs.
Proof.
  induction 1 as [|u m urls msgs Hm _ IH]; constructor; [|exact IH].
  exact (reports_kind u m Hm).
Qed.

(** The documents collected so far pass through one step of the fallback
    untouched: the step appends what it would return from nothing. *)
Lemma fetch_one_acc (url : text) (docs : list Document) (st : State E) :
  exists new st',
    fetch_one E url [] st = (Ok new, st')
    /\ fetch_one E url docs st = (Ok (docs ++ new), st').
Proof.
  unfold fetch_one. run.
  destruct (requests_get E url user_agent_headers 10 (outside E st))
    as [[e | res] w]; run.
  - do 2 eexists. split; [reflexivity|]. rewrite app_nil_r. reflexivity.
  - destruct (status_code res =? 200); cbv [negb]; run.
    + destruct (soup_paragraphs E (res_text res) w) as [[e | ps] w']; run.
      * do 2 eexists. split; [reflexivity|]. rewrite app_nil_r. reflexivity.
      * destruct (truthy (strip (join (py " ") ps))); run.
        -- do 2 eexists. split; reflexivity.
        -- do 2 eexists. split; [reflexivity|]. rewrite app_nil_r. reflexivity.
    + do 2 eexists. split; [reflexivity|]. rewrite app_nil_r. reflexivity.
Qed.

(** The same for the whole loop. *)
Lemma fallback_loop_acc (urls : list text) :
  forall docs st,
  exists new st',
    for_each E urls (fetch_one E) [] st = (Ok new, st')
    /\ for_each E urls (fetch_one E) docs st = (Ok (docs ++ new), st').
Proof.
  induction urls as [|url urls IH]; intros docs st.
  - exists [], st. cbn [for_each]. run. rewrite app_nil_r. split; reflexivity.
  - destruct (fetch_one_acc url docs st) as (n1 & st1 & Hnil & Hdocs).
    destruct (IH n1 st1) as (n2 & st2 & Hnil2 & Hn1).
    destruct (IH (docs ++ n1) st1) as (n2' & st2' & Hnil2' & Hdocs2).
    rewrite Hnil2 in Hnil2'. injection Hnil2' as <- <-.
    exists (n1 ++ n2), st2. cbn [for_each]. unfold bind.
    rewrite Hnil, Hdocs, Hn1, Hdocs2, app_assoc. split; reflexivity.
Qed.

(** A loop over a concatenation is the loop over the first list followed by
    the loop over the second. *)
Lemma for_each_app {A S} (xs ys : list A) (body : A -> S -> M E S) :
  forall acc st,
    for_each E (xs ++ ys) body acc st
    = bind E (for_each E xs body acc) (for_each E ys body) st.
Proof.
  induction xs as [|x xs IH]; intros acc st.
  - reflexivity.
  - cbn [for_each app]. unfold bind.
    destruct (body x acc st) as [[acc' | e] st1]; [|reflexivity].
    rewrite IH. reflexivity.
Qed.

(** The calls of one step of the fallback: the request, and the parse when
    the request was answered with status 200. *)
Lemma fetch_one_calls (url : text) (docs : list Document) (st : State E) :
  exists cs,
    calls E (snd (fetch_one E url docs st)) = calls E st ++ cs
    /\ Forall (fun c => is_fallback_call E c = true) cs.
Proof.
  unfold fetch_one. run.
  destruct (requests_get E url user_agent_headers 10 (outside E st))
    as [[e | res] w]; run.
  - exists [CallRequestsGet E url]. split; [reflexivity | repeat constructor].
  - destruct (status_code res =? 200); cbv [negb]; run.
    + destruct (soup_paragraphs E (res_text res) w) as [[e | ps] w']; run.
      * exists [CallRequestsGet E url; CallSoup E (res_text res)].
        rewrite <- app_assoc. split; [reflexivity | repeat constructor].
      * destruct (truthy (strip (join (py " ") ps))); run;
          exists [CallRequestsGet E url; CallSoup E (res_text res)];
          rewrite <- app_assoc; (split; [reflexivity | repeat constructor]).
    + exists [CallRequestsGet E url]. split; [reflexivity | repeat constructor].
Qed.

Lemma fallback_loop_calls (urls : list text) :
  forall docs st,
  exists cs,
    calls E (snd (for_each E urls (fetch_one E) docs st)) = calls E st ++ cs
    /\ Forall (fun c => is_fallback_call E c = true) cs.
Proof.
  induction urls as [|url urls IH]; intros docs st.
  - exists []. cbn [for_each]. run. rewrite app_nil_r. split; [reflexivity | constructor].
  - destruct (fetch_one_calls url docs st) as (cs1 & Hcs1 & Hk1).
    destruct (fetch_one_spec E url docs st) as (docs1 & st1 & m & Hone & _).
    rewrite Hone in Hcs1. cbn [snd] in Hcs1.
    destruct (IH docs1 st1) as (cs2 & Hcs2 & Hk2).
    cbn [for_each]. unfold bind. rewrite Hone.
    exists (cs1 ++ cs2). rewrite Hcs2, Hcs1, app_assoc.
    split; [reflexivity | apply Forall_app; split; assumption].
Qed.

(** The content fetcher in full: it returns; the disk is untouched; the
    primary loader is called once, first, and only the fallback calls after
    it; the documents are those of the loader when it gave any, and documents
    of the fallback otherwise. *)
Lemma fetch_documents_shape (urls : list text) (st : State E) :
  exists data st1 msgs cs,
    fetch_documents E urls st = (Ok data, st1)
    /\ fs E st1 = fs E st
    /\ ui E st1 = ui E st ++ msgs
    /\ Forall (fun m => is_saved_msg m = false /\ is_write m = false) msgs
    /\ calls E st1 = calls E st ++ CallUnstructuredLoad E urls :: cs
    /\ Forall (fun c => is_fallback_call E c = true) cs
    /\ match fst (unstructured_load E urls user_agent_headers (outside E st)) with
       | inr (d :: ds) => data = d :: ds /\ msgs = [] /\ cs = []
       | inr [] =>
           Forall (fallback_document urls) data
           /\ exists rest, msgs = msg_fallback :: rest
       | inl e =>
           Forall (fallback_document urls) data
           /\ exists rest,
                msgs = msg_loader_failed E (LibError e) :: msg_fallback :: rest
       end.
Proof.
  unfold fetch_documents. run.
  destruct (unstructured_load E urls user_agent_headers (outside E st))
    as [[e | [|d data]] w] eqn:Hload; run; cbn [truthy negb orb len].
  - match goal with
    | |- context [fallback_bs4_loader E urls ?s] =>
        destruct (fallback_loop_spec E urls [] s)
          as (new & st2 & msgs & Hfb & Hfs & Hui & Hmsgs & _ & _ & Hdocs & _);
        destruct (fallback_loop_calls urls [] s) as (cs & Hcs & Hk)
    end.
    unfold fallback_bs4_loader. rewrite Hfb in *. cbn [fs ui calls snd app] in *.
    exists new, st2. do 2 eexists. split; [reflexivity|].
    split; [exact Hfs|].
    split; [rewrite Hui, <- !app_assoc; reflexivity|].
    split; [repeat constructor; apply (reports_kinds urls msgs Hmsgs)|].
    split; [rewrite Hcs, <- app_assoc; reflexivity|].
    split; [exact Hk|]. split; [exact Hdocs|]. eexists. reflexivity.
  - match goal with
    | |- context [fallback_bs4_loader E urls ?s] =>
        destruct (fallback_loop_spec E urls [] s)
          as (new & st2 & msgs & Hfb & Hfs & Hui & Hmsgs & _ & _ & Hdocs & _);
        destruct (fallback_loop_calls urls [] s) as (cs & Hcs & Hk)
    end.
    unfold fallback_bs4_loader. rewrite Hfb in *. cbn [fs ui calls snd app] in *.
    exists new, st2. do 2 eexists. split; [reflexivity|].
    split; [exact Hfs|].
    split; [rewrite Hui, <- !app_assoc; reflexivity|].
    split; [repeat constructor; apply (reports_kinds urls msgs Hmsgs)|].
    split; [rewrite Hcs, <- app_assoc; reflexivity|].
    split; [exact Hk|]. split; [exact Hdocs|]. eexists. reflexivity.
  - replace (Z.of_nat (List.length (d :: data)) =? 0) with false
      by (cbn [List.length]; lia).
    exists (d :: data). eexists. exists [], []. split; [reflexivity|].
    cbn [fs ui calls]. rewrite app_nil_r.
    repeat split; constructor.
Qed.

(** What the "Process URLs" handler shows after a fetch that gave
    documents: the two counts, the notice of the build, and the notice of
    the saved index exactly when the handler returns. *)
Lemma process_urls_messages (urls : list text) (st : State E)
    (data : list Document) (st1 : State E) :
  truthy urls = true ->
  fetch_documents E urls (shown E msg_loading st) = (Ok data, st1) ->
  data <> [] ->
  exists chunks,
    Splitter.split_documents text_splitter data = Some chunks
    /\ ui E (snd (process_urls E urls st))
       = ui E st1
         ++ [msg_loaded (len data); msg_split (len chunks); msg_building]
         ++ match fst (process_urls E urls st) with
            | Ok _ => [msg_saved]
            | Raise _ => []
            end.
Proof.
  intros Hurls Hfetch Hdata. unfold process_urls. rewrite Hurls. cbv [negb].
  unfold msg_loading in Hfetch. run. unfold shown in Hfetch. rewrite Hfetch. run.
  destruct data as [|d data]; [congruence|].
  replace (len (d :: data) =? 0) with false
    by (unfold len; cbn [List.length]; lia).
  destruct (SplitterFacts.split_documents_spec (d :: data)) as (chunks & Hsplit & _).
  exists chunks. split; [exact Hsplit|].
  unfold split_documents. rewrite Hsplit. run.
  destruct (openai_embeddings E (outside E st1)) as [[e | emb] w1]; run;
    [rewrite <- !app_assoc; reflexivity|].
  unfold FAISS_from_documents. run.
  destruct (embed_documents E emb (List.map page_content chunks) w1)
    as [[e | vectors] w2]; run; [rewrite <- !app_assoc; reflexivity|].
  destruct (faiss_index E vectors w2) as [[e | idx] w3]; run;
    [rewrite <- !app_assoc; reflexivity|].
  unfold save_local. cbn [index docstore fs outside ui calls].
  destruct (write_folder E idx chunks (fs E st1 faiss_folder) w3)
    as [[[e | []] new] w4]; run; rewrite <- !app_assoc; reflexivity.
Qed.

Lemma fallback_is_process (cs : list (Call E)) :
  Forall (fun c => is_fallback_call E c = true) cs ->
  Forall (fun c => is_process_call E c = true) cs.
Proof.
  intros H. eapply Forall_impl; [|exact H].
  intros c Hc. destruct c; try discriminate; reflexivity.
Qed.

(** The calls of the "Process URLs" handler are of its own kinds: it never
    loads an index, builds a chain or asks a language model. *)
Lemma process_urls_trace (urls : list text) (st : State E) :
  exists pre,
    calls E (snd (process_urls E urls st)) = calls E st ++ pre
    /\ Forall (fun c => is_process_call E c = true) pre.
Proof.
  destruct urls as [|u urls].
  - exists []. unfold process_urls. cbn [truthy negb]. run.
    rewrite app_nil_r. split; [reflexivity | constructor].
  - destruct (fetch_documents_shape (u :: urls) (shown E msg_loading st))
      as (data & st1 & msgs & cs & Hfetch & _ & _ & _ & Hcs & Hk & _).
    destruct (process_urls_cases E (u :: urls) st data st1 eq_refl Hfetch)
      as (r & st' & msgs2 & cs2 & Hp & _ & _ & Hcs2 & _ & Hcase).
    rewrite Hp. cbn [snd shown calls] in *.
    exists ((CallUnstructuredLoad E (u :: urls) :: cs) ++ cs2).
    rewrite Hcs2, Hcs, app_assoc. split; [reflexivity|].
    apply Forall_app. split.
    + constructor; [reflexivity | exact (fallback_is_process cs Hk)].
    + destruct Hcase as [(_ & _ & -> & _)
                        | (_ & chunks & _
                           & [(e0 & build & _ & -> & _ & Hbuild & _)
                             | (vs & w & _ & -> & _)])].
      * constructor.
      * constructor; [reflexivity|].
        eapply Forall_impl; [|exact Hbuild].
        intros c Hc. destruct c; try discriminate; reflexivity.
      * repeat constructor.
Qed.

(** The question handler in full.  Without an index it shows the message
    and returns.  With one, either one of its four calls raises, the
    exception goes on to the caller and nothing but the notice of the search
    was shown, or all four return and the answer and the sources of the chain
    are shown, in this order. *)
Lemma answer_query_cases (model : llm E) (question : text) (st : State E) :
  exists r st' msgs cs,
    answer_query E model question st = (r, st')
    /\ fs E st' = fs E st
    /\ ui E st' = ui E st ++ msgs
    /\ calls E st' = calls E st ++ cs
    /\ Forall (fun c => is_query_call E c = true) cs
    /\ ((fs E st faiss_folder = None /\ r = Ok tt
         /\ msgs = [msg_no_index] /\ cs = [])
        \/ (fs E st faiss_folder <> None
            /\ ((exists e, r = Raise (LibError e)
                           /\ msgs = [msg_searching] /\ cs <> [])
                \/ (exists qa w w' answer sources,
                       chain_call E qa question w = (inr (answer, sources), w')
                       /\ r = Ok tt
                       /\ msgs = [msg_searching; msg_answer answer;
                                  msg_sources sources]
                       /\ cs = [CallOpenAIEmbeddings E;
                                CallLoadLocal E faiss_folder;
                                CallChainFromLlm E;
                                CallChain E question])))).
Proof.
  unfold answer_query, os_path_exists, load_local. run.
  destruct (fs E st faiss_folder) as [f|] eqn:Hf; cbv [negb]; run.
  2:{ do 4 eexists. split; [reflexivity|]. cbn [fs ui calls].
      split; [reflexivity|]. split; [reflexivity|].
      split; [symmetry; apply app_nil_r|]. split; [constructor|].
      left. repeat split. }
  destruct (openai_embeddings E (outside E st)) as [[e | emb] w1]; run.
  { do 4 eexists. split; [reflexivity|]. cbn [fs ui calls].
    do 3 (split; [reflexivity|]). split; [repeat constructor|].
    right. split; [discriminate|]. left. exists e. repeat split. discriminate. }
  rewrite Hf.
  destruct (read_folder E (Some f) emb true w1) as [[e | [idx docs]] w2]; run.
  { do 4 eexists. split; [reflexivity|]. cbn [fs ui calls].
    rewrite <- !app_assoc.
    do 3 (split; [reflexivity|]). split; [repeat constructor|].
    right. split; [discriminate|]. left. exists e. repeat split. discriminate. }
  cbn [index docstore].
  destruct (chain_from_llm E model idx docs w2) as [[e | qa] w3]; run.
  { do 4 eexists. split; [reflexivity|]. cbn [fs ui calls].
    rewrite <- !app_assoc.
    do 3 (split; [reflexivity|]). split; [repeat constructor|].
    right. split; [discriminate|]. left. exists e. repeat split. discriminate. }
  destruct (chain_call E qa question w3) as [[e | [answer sources]] w4] eqn:Hchain; run.
  { do 4 eexists. split; [reflexivity|]. cbn [fs ui calls].
    rewrite <- !app_assoc.
    do 3 (split; [reflexivity|]). split; [repeat constructor|].
    right. split; [discriminate|]. left. exists e. repeat split. discriminate. }
  do 4 eexists. split; [reflexivity|]. cbn [fs ui calls].
  rewrite <- !app_assoc.
  do 3 (split; [reflexivity|]). split; [repeat constructor|].
  right. split; [discriminate|]. right.
  exists qa, w3, w4, answer, sources. split; [exact Hchain|]. repeat split.
Qed.

(** The calls of the question handler save nothing and fetch nothing. *)
Lemma query_calls_quiet (cs : list (Call E)) :
  Forall (fun c => is_query_call E c = true) cs ->
  saves E cs = [] /\ fetched E cs = [].
Proof.
  induction 1 as [|c cs Hc _ [IH1 IH2]]; [split; reflexivity|].
  unfold saves, fetched in *. cbn [flat_map]. rewrite IH1, IH2.
  destruct c; try discriminate; split; reflexivity.
Qed.

(** The join of paragraphs that hold white space only holds white space
    only. *)
Lemma join_blank (ps : list text) :
  forallb (forallb isspace) ps = true ->
  forallb isspace (join (py " ") ps) = true.
Proof.
  induction ps as [|p ps IH]; [reflexivity|].
  intros H. cbn [forallb] in H. apply andb_true_iff in H as [Hp Hps].
  destruct ps as [|q ps]; [exact Hp|].
  change (join (py " ") (p :: q :: ps)) with (p ++ py " " ++ join (py " ") (q :: ps)).
  rewrite !forallb_app, Hp, (IH Hps). reflexivity.
Qed.

End HandlerFacts.

(* ===================================================================== *)
(** * Further properties of the script *)
(* ===================================================================== *)

Lemma not_saved_filter (msgs : list UiMsg) :
  Forall (fun m => is_saved_msg m = false /\ is_write m = false) msgs ->
  filter is_saved_msg msgs = [].
Proof.
  induction 1 as [|m msgs [Hm _] _ IH]; [reflexivity|].
  cbn [filter]. rewrite Hm. exact IH.
Qed.

(** X1.  The URLs of the side bar are the stripped values of the fields 1,
    2 and 3, in this order, without the empty ones: at most three, and a
    value entered twice is kept twice. *)
Theorem sidebar_urls_in_field_order (inp : Inputs) :
  sidebar_urls inp
  = filter truthy (List.map (fun i => strip (url_input inp i)) [1; 2; 3]%nat)
  /\ (List.length (sidebar_urls inp) <= 3)%nat.
Proof.
  unfold sidebar_urls. cbn [fold_left List.map filter].
  destruct (truthy (strip (url_input inp 1)));
    destruct (truthy (strip (url_input inp 2)));
    destruct (truthy (strip (url_input inp 3)));
    cbn [app List.length]; split; try reflexivity; lia.
Qed.

Section Extras.

Context (E : Env).

(** X2.  The content fetcher never raises, whatever the loader, the network
    and the parser do.  It leaves the disk alone and calls the primary loader
    exactly once, before anything else, with only requests and parses of the
    fallback after it.  When the loader returns documents they are passed on
    unchanged and nothing is shown; when it returns none the fallback is
    announced, and when it raises the warning with the text of the exception
    comes first; in both cases every document returned was made by the
    fallback for one of the URLs. *)
Theorem fetch_documents_never_raises (urls : list text) (st : State E) :
  exists data st1 msgs cs,
    fetch_documents E urls st = (Ok data, st1)
    /\ fs E st1 = fs E st
    /\ ui E st1 = ui E st ++ msgs
    /\ calls E st1 = calls E st ++ CallUnstructuredLoad E urls :: cs
    /\ Forall (fun c => is_fallback_call E c = true) cs
    /\ match fst (unstructured_load E urls user_agent_headers (outside E st)) with
       | inr (d :: ds) => data = d :: ds /\ msgs = [] /\ cs = []
       | inr [] =>
           Forall (fallback_document urls) data
           /\ exists rest, msgs = msg_fallback :: rest
       | inl e =>
           Forall (fallback_document urls) data
           /\ exists rest,
                msgs = msg_loader_failed E (LibError e) :: msg_fallback :: rest
       end.
Proof.
  destruct (fetch_documents_shape E urls st)
    as (data & st1 & msgs & cs & H1 & H2 & H3 & _ & H4 & H5 & H6).
  exists data, st1, msgs, cs. repeat split; assumption.
Qed.

(** X3.  A page answered with status 200 whose paragraphs are all empty or
    white space only (a page without paragraphs included) gives no document:
    the documents collected so far are returned as they are, after the
    request and the parse, with the warning that no readable text was
    found. *)
Theorem blank_page_gives_no_document (url : text) (docs : list Document)
    (st : State E) (res : Response) (w w' : world E) (ps : list text) :
  requests_get E url user_agent_headers 10 (outside E st) = (inr res, w) ->
  status_code res = 200 ->
  soup_paragraphs E (res_text res) w = (inr ps, w') ->
  forallb (forallb isspace) ps = true ->
  fetch_one E url docs st
  = (Ok docs,
     mkState E (fs E st) w' (ui E st ++ [msg_no_text url])
             (calls E st ++ [CallRequestsGet E url; CallSoup E (res_text res)])).
Proof.
  intros Hget Hstatus Hsoup Hblank. unfold fetch_one. run.
  rewrite Hget. run. rewrite Hstatus.
  change (negb (200 =? 200)) with false. run. rewrite Hsoup. run.
  rewrite (strip_blank _ (join_blank ps Hblank)). cbn [truthy]. run.
  rewrite <- !app_assoc. reflexivity.
Qed.

(** X4.  The "Process URLs" handler writes nowhere but at the index path:
    whatever happens, every other path holds after the action what it held
    before. *)
Theorem process_urls_touches_only_index_path (urls : list text) (st : State E)
    (p : text) :
  text_eqb p faiss_folder = false ->
  fs E (snd (process_urls E urls st)) p = fs E st p.
Proof.
  intros Hp. destruct urls as [|u urls].
  - unfold process_urls. cbn [truthy negb]. run. reflexivity.
  - destruct (fetch_documents_shape E (u :: urls) (shown E msg_loading st))
      as (data & st1 & msgs & cs & Hfetch & Hfs & _).
    destruct (process_urls_cases E (u :: urls) st data st1 eq_refl Hfetch)
      as (r & st' & msgs2 & cs2 & Hrun & _ & _ & _ & _ & Hcase).
    rewrite Hrun. cbn [snd shown fs] in *.
    destruct Hcase as [(_ & _ & _ & ->)
                      | (_ & chunks & _
                         & [(e0 & build & _ & _ & _ & _ & Hfs')
                           | (vs & w & _ & _ & Hfs' & _)])].
    + cbn [shown fs]. rewrite Hfs. reflexivity.
    + rewrite Hfs', Hfs. reflexivity.
    + rewrite Hfs'. unfold fs_set. rewrite Hp, Hfs. reflexivity.
Qed.

(** X5.  The notice that the index was saved is shown only when
    [save_local] has returned: an action that raises never shows it, and an
    action that returns either shows none and saves nothing (no URL, or no
    content), or ends with the number of chunks of the saved store, the
    notice of the build and the notice of the save, in this order. *)
Theorem saved_notice_only_after_save (urls : list text) (st : State E) :
  let r := fst (process_urls E urls st) in
  let st' := snd (process_urls E urls st) in
  exists msgs,
    ui E st' = ui E st ++ msgs
    /\ match r with
       | Raise _ => filter is_saved_msg msgs = []
       | Ok _ =>
           (filter is_saved_msg msgs = []
            /\ saves E (calls E st') = saves E (calls E st))
           \/ (exists front vs,
                  msgs = front ++ [msg_split (len (docstore E vs));
                                   msg_building; msg_saved]
                  /\ filter is_saved_msg front = []
                  /\ saves E (calls E st')
                     = saves E (calls E st) ++ [(vs, faiss_folder)])
       end.
Proof.
  cbv zeta. destruct urls as [|u urls].
  - unfold process_urls. cbn [truthy negb]. run.
    exists [msg_no_url]. split; [reflexivity|]. left. split; reflexivity.
  - destruct (fetch_documents_shape E (u :: urls) (shown E msg_loading st))
      as (data & st1 & msgs & cs & Hfetch & _ & Hui & Hkinds & Hcs & Hk & _).
    destruct (process_urls_cases E (u :: urls) st data st1 eq_refl Hfetch)
      as (r & st' & msgs2 & cs2 & Hrun & _ & _ & Hcs2 & _ & Hcase).
    cbn [shown ui calls] in *.
    assert (Hquiet : filter is_saved_msg (msg_loading :: msgs) = []).
    { cbn [filter msg_loading is_saved_msg]. exact (not_saved_filter msgs Hkinds). }
    assert (Hsaves : saves E (calls E st') = saves E (calls E st) ++ saves E cs2).
    { rewrite Hcs2, Hcs, !saves_app.
      change (CallUnstructuredLoad E (u :: urls) :: cs)
        with ([CallUnstructuredLoad E (u :: urls)] ++ cs).
      rewrite saves_app.
      assert (Hnone : saves E cs = []).
      { clear - Hk. induction Hk as [|c l Hc _ IH]; [reflexivity|].
        unfold saves in *. cbn [flat_map]. rewrite IH.
        destruct c; try discriminate; reflexivity. }
      rewrite Hnone. cbn. rewrite app_nil_r. reflexivity. }
    destruct Hcase as [(-> & Hr & -> & Hst)
                      | (Hdata & chunks & Hsplit & Hcase)].
    + rewrite Hrun. cbn [fst snd]. subst r st'. cbn [shown ui].
      exists ((msg_loading :: msgs) ++ [msg_loaded 0; msg_no_content]).
      split; [rewrite Hui, <- !app_assoc; reflexivity|].
      left. split.
      * rewrite filter_app, Hquiet. reflexivity.
      * cbn [shown calls] in *. rewrite Hsaves. apply app_nil_r.
    + destruct (process_urls_messages E (u :: urls) st data st1 eq_refl Hfetch Hdata)
        as (chunks' & Hsplit' & Hmsgs).
      rewrite Hsplit in Hsplit'. injection Hsplit' as <-.
      rewrite Hrun in *. cbn [fst snd] in *.
      destruct Hcase as [(e0 & build & -> & _ & _ & _ & _)
                        | (vs & w & Hvs & -> & _ & Hr)].
      * exists (msg_loading :: msgs
                ++ [msg_loaded (len data); msg_split (len chunks); msg_building]).
        split; [rewrite Hmsgs, Hui, <- !app_assoc, app_nil_r; reflexivity|].
        cbn [filter msg_loading is_saved_msg].
        rewrite filter_app, (not_saved_filter msgs Hkinds). reflexivity.
      * destruct r as [[]|e0].
        -- exists ((msg_loading :: msgs ++ [msg_loaded (len data)])
                   ++ [msg_split (len (docstore E vs)); msg_building; msg_saved]).
           split; [rewrite Hmsgs, Hui, Hvs; cbn [app];
                   rewrite <- !app_assoc; reflexivity|].
           right. exists (msg_loading :: msgs ++ [msg_loaded (len data)]), vs.
           split; [reflexivity|]. split.
           ++ cbn [filter msg_loading is_saved_msg].
              rewrite filter_app, (not_saved_filter msgs Hkinds). reflexivity.
           ++ rewrite Hsaves. reflexivity.
        -- exists (msg_loading :: msgs
                   ++ [msg_loaded (len data); msg_split (len chunks); msg_building]).
           split; [rewrite Hmsgs, Hui, <- !app_assoc, app_nil_r; reflexivity|].
           cbn [filter msg_loading is_saved_msg].
           rewrite filter_app, (not_saved_filter msgs Hkinds). reflexivity.
Qed.

(** X6.  The "Process URLs" handler raises only after chunking was
    reached: no failure of the loader, of the network or of the parser makes
    it raise, and when it raises the fetch had given at least one document
    and [split_documents] was called on what it gave. *)
Theorem process_urls_raises_only_after_split (urls : list text) (st : State E) :
  exists new,
    calls E (snd (process_urls E urls st)) = calls E st ++ new
    /\ match fst (process_urls E urls st) with
       | Ok _ => True
       | Raise _ =>
           exists data st1,
             fetch_documents E urls (shown E msg_loading st) = (Ok data, st1)
             /\ data <> []
             /\ In (CallSplitDocuments E data) new
       end.
Proof.
  destruct urls as [|u urls].
  - exists []. unfold process_urls. cbn [truthy negb]. run.
    rewrite app_nil_r. split; [reflexivity | exact I].
  - destruct (fetch_documents_shape E (u :: urls) (shown E msg_loading st))
      as (data & st1 & msgs & cs & Hfetch & _ & _ & _ & Hcs & _).
    destruct (process_urls_cases E (u :: urls) st data st1 eq_refl Hfetch)
      as (r & st' & msgs2 & cs2 & Hrun & _ & _ & Hcs2 & _ & Hcase).
    rewrite Hrun. cbn [fst snd shown calls] in *.
    exists ((CallUnstructuredLoad E (u :: urls) :: cs) ++ cs2).
    split; [rewrite Hcs2, Hcs, app_assoc; reflexivity|].
    destruct r as [[]|e]; [exact I|].
    exists data, st1. split; [exact Hfetch|].
    destruct Hcase as [(_ & Hr & _) | (Hdata & chunks & _ & Hcase)];
      [discriminate Hr|].
    split; [exact Hdata|]. apply in_or_app. right.
    destruct Hcase as [(e0 & build & _ & -> & _) | (vs & w & _ & -> & _)];
      left; reflexivity.
Qed.

(** X7.  The question handler never catches an exception and never shows
    half an answer.  Without an index it shows the message and returns.  With
    one, either the embedding client, the load of the index, the
    construction of the chain or the call of the chain raises, the exception
    goes on to the caller and only the notice of the search was shown; or all
    four return, in this order, and the answer and the sources returned by
    the chain for this question are shown as they are.  The disk is the same
    in every case. *)
Theorem answer_query_outcomes (model : llm E) (question : text) (st : State E) :
  exists r st' msgs cs,
    answer_query E model question st = (r, st')
    /\ fs E st' = fs E st
    /\ ui E st' = ui E st ++ msgs
    /\ calls E st' = calls E st ++ cs
    /\ ((fs E st faiss_folder = None /\ r = Ok tt
         /\ msgs = [msg_no_index] /\ cs = [])
        \/ (fs E st faiss_folder <> None
            /\ ((exists e, r = Raise (LibError e)
                           /\ msgs = [msg_searching] /\ cs <> []
                           /\ Forall (fun c => is_query_call E c = true) cs)
                \/ (exists qa w w' answer sources,
                       chain_call E qa question w = (inr (answer, sources), w')
                       /\ r = Ok tt
                       /\ msgs = [msg_searching; msg_answer answer;
                                  msg_sources sources]
                       /\ cs = [CallOpenAIEmbeddings E;
                                CallLoadLocal E faiss_folder;
                                CallChainFromLlm E;
                                CallChain E question])))).
Proof.
  destruct (answer_query_cases E model question st)
    as (r & st' & msgs & cs & Hrun & Hfs & Hui & Hcs & Hk & Hcase).
  exists r, st', msgs, cs. do 4 (split; [assumption|]).
  destruct Hcase as [H | (Hf & [(e & H1 & H2 & H3) | H])];
    [left; exact H | right; split; [exact Hf|] ..].
  - left. exists e. repeat split; assumption.
  - right. exact H.
Qed.

(** The first stage of a run: the "Process URLs" handler when the button
    was pressed, nothing otherwise. *)
Lemma first_stage_trace (inp : Inputs) (st : State E) :
  exists pre,
    calls E (snd ((if process_url_clicked inp
                   then process_urls E (sidebar_urls inp)
                   else ret E tt) st))
    = calls E st ++ pre
    /\ Forall (fun c => is_process_call E c = true) pre
    /\ (if process_url_clicked inp then True else pre = []).
Proof.
  destruct (process_url_clicked inp).
  - destruct (process_urls_trace E (sidebar_urls inp) st) as (pre & Hpre & Hk).
    exists pre. repeat split; assumption.
  - exists []. run. rewrite app_nil_r. repeat split. constructor.
Qed.

(** X8.  A run of the script in which the button was not pressed fetches
    nothing and persists nothing, whatever the question and whatever the
    services do: the disk after the run is the disk before it. *)
Theorem script_without_button_persists_nothing (inp : Inputs) (st : State E) :
  process_url_clicked inp = false ->
  fs E (snd (script E inp st)) = fs E st
  /\ saves E (calls E (snd (script E inp st))) = saves E (calls E st)
  /\ fetched E (calls E (snd (script E inp st))) = fetched E (calls E st).
Proof.
  intros Hbutton. unfold script. cbv zeta. rewrite Hbutton. run.
  destruct (openai_llm E (9 # 10)%Q 500 (outside E st)) as [[e | model] w]; run.
  { rewrite saves_app, fetched_app, !app_nil_r. repeat split. }
  destruct (truthy (query inp)); run.
  - match goal with
    | |- context [answer_query E model (query inp) ?s] =>
        destruct (answer_query_cases E model (query inp) s)
          as (r & st' & msgs & cs & Hrun & Hfs & _ & Hcs & Hk & _)
    end.
    rewrite Hrun. cbn [snd fs calls] in *.
    destruct (query_calls_quiet E cs Hk) as [Hs Hf].
    rewrite Hcs, !saves_app, !fetched_app, Hs, Hf, !app_nil_r.
    repeat split. exact Hfs.
  - rewrite saves_app, fetched_app, !app_nil_r. repeat split.
Qed.

(** A run of the script is its first stage and, when that returns, the
    rest. *)
Lemma script_stages (inp : Inputs) (st : State E) :
  script E inp st
  = match (if process_url_clicked inp
           then process_urls E (sidebar_urls inp)
           else ret E tt) st with
    | (Ok _, st1) =>
        bind E (call E (CallOpenAI E) (openai_llm E (9 # 10)%Q 500))
             (fun model => if truthy (query inp)
                           then answer_query E model (query inp)
                           else ret E tt) st1
    | (Raise e, st1) => (Raise e, st1)
    end.
Proof. reflexivity. Qed.

(** X9.  The stages of a run come in one order.  First the calls of the
    "Process URLs" handler (none when the button was not pressed); then the
    construction of the language model, once; then the calls of the question
    handler (none when the question box is empty).  When the first stage
    raises, the run ends there: the script raises that exception from the
    state the first stage left, the language model is not constructed and
    the question is not handled.  When the first stage returns, the language
    model is constructed, and when that raises the run raises its exception
    and the question is not handled.  So within a run the index is never
    loaded before it is saved. *)
Theorem script_stage_order (inp : Inputs) (st : State E) :
  let r := fst (script E inp st) in
  let st' := snd (script E inp st) in
  let st1 := snd (first_stage E inp st) in
  exists pre mid post,
    calls E st' = calls E st ++ pre ++ mid ++ post
    /\ calls E st1 = calls E st ++ pre
    /\ Forall (fun c => is_process_call E c = true) pre
    /\ Forall (fun c => is_query_call E c = true) post
    /\ loads E pre = [] /\ saves E post = []
    /\ (if process_url_clicked inp then True else pre = [])
    /\ (if truthy (query inp) then True else post = [])
    /\ match fst (first_stage E inp st) with
       | Raise e =>
           mid = [] /\ post = [] /\ script E inp st = (Raise e, st1)
       | Ok _ =>
           mid = [CallOpenAI E]
           /\ match fst (openai_llm E (9 # 10)%Q 500 (outside E st1)) with
              | inl e => post = [] /\ r = Raise (LibError e)
              | inr model =>
                  r = fst ((if truthy (query inp)
                            then answer_query E model (query inp)
                            else ret E tt)
                             (mkState E (fs E st1)
                                (snd (openai_llm E (9 # 10)%Q 500 (outside E st1)))
                                (ui E st1) (calls E st1 ++ [CallOpenAI E])))
              end
       end.
Proof.
  cbv zeta. unfold first_stage.
  destruct (first_stage_trace inp st) as (pre & Hpre & Hk & Hbutton).
  assert (Hloads : loads E pre = []).
  { clear - Hk. induction Hk as [|c l Hc _ IH]; [reflexivity|].
    unfold loads in *. cbn [flat_map]. rewrite IH.
    destruct c; try discriminate; reflexivity. }
  rewrite script_stages.
  destruct ((if process_url_clicked inp
             then process_urls E (sidebar_urls inp)
             else ret E tt) st) as [[[] | e] st1].
  2:{ exists pre, [], []. cbn [fst snd] in *. rewrite !app_nil_r.
      split; [exact Hpre|]. split; [exact Hpre|]. split; [exact Hk|].
      split; [constructor|].
      split; [exact Hloads|]. split; [reflexivity|]. split; [exact Hbutton|].
      split; [destruct (truthy (query inp)); auto|].
      repeat split. }
  cbn [fst snd] in *. run.
  destruct (openai_llm E (9 # 10)%Q 500 (outside E st1)) as [[e | model] w]; run.
  { exists pre, [CallOpenAI E], [].
    split; [rewrite Hpre, !app_nil_r, <- !app_assoc; reflexivity|].
    split; [exact Hpre|]. split; [exact Hk|]. split; [constructor|].
    split; [exact Hloads|]. split; [reflexivity|]. split; [exact Hbutton|].
    split; [destruct (truthy (query inp)); auto|]. repeat split. }
  destruct (truthy (query inp)); run.
  - match goal with
    | |- context [answer_query E model (query inp) ?s] =>
        destruct (answer_query_cases E model (query inp) s)
          as (r & st' & msgs & cs & Hrun & _ & _ & Hcs & Hq & _)
    end.
    rewrite Hrun. cbn [fst snd calls] in *.
    exists pre, [CallOpenAI E], cs.
    split; [rewrite Hcs, Hpre, <- !app_assoc; reflexivity|].
    split; [exact Hpre|]. split; [exact Hk|]. split; [exact Hq|].
    split; [exact Hloads|]. split; [exact (proj1 (query_calls_quiet E cs Hq))|].
    split; [exact Hbutton|]. split; [exact I|]. split; reflexivity.
  - exists pre, [CallOpenAI E], [].
    split; [rewrite Hpre, !app_nil_r, <- !app_assoc; reflexivity|].
    split; [exact Hpre|]. split; [exact Hk|]. split; [constructor|].
    split; [exact Hloads|]. split; [reflexivity|]. split; [exact Hbutton|].
    split; [reflexivity|]. split; reflexivity.
Qed.

(** X10.  Pressing the button with every field empty or white space only
    does not end the run: after the message "Please enter at least one valid
    URL." the script goes on exactly as a run without the button does, so a
    question in the box is still handled. *)
Theorem script_blank_urls_continues (inp : Inputs) (st : State E) :
  (forall i, (1 <= i <= 3)%nat -> forallb isspace (url_input inp i) = true) ->
  process_url_clicked inp = true ->
  script E inp st
  = script E (mkInputs (url_input inp) false (query inp)) (shown E msg_no_url st).
Proof.
  intros Hblank Hbutton.
  assert (Hnone : sidebar_urls inp = []).
  { unfold sidebar_urls. cbn [fold_left].
    rewrite !strip_blank by (apply Hblank; lia). reflexivity. }
  unfold script. cbv zeta. rewrite Hbutton, Hnone.
  cbn [process_url_clicked query]. unfold process_urls. cbn [truthy negb]. run.
  reflexivity.
Qed.

(** X11.  The fallback over a list of URLs followed by another is the
    fallback over the first list and then, from the state it leaves, over
    the second, with the documents of the first before those of the second:
    the documents of a URL do not depend on the URLs after it, and those
    collected are never dropped or reordered. *)
Theorem fallback_concat (urls1 urls2 : list text) (st : State E) :
  exists docs1 st1 docs2 st2,
    fallback_bs4_loader E urls1 st = (Ok docs1, st1)
    /\ fallback_bs4_loader E urls2 st1 = (Ok docs2, st2)
    /\ fallback_bs4_loader E (urls1 ++ urls2) st = (Ok (docs1 ++ docs2), st2).
Proof.
  unfold fallback_bs4_loader.
  destruct (fallback_loop_acc E urls1 [] st) as (docs1 & st1 & Hone & _).
  destruct (fallback_loop_acc E urls2 docs1 st1) as (docs2 & st2 & Htwo & Hacc).
  exists docs1, st1, docs2, st2. split; [exact Hone|]. split; [exact Htwo|].
  rewrite for_each_app. unfold bind. rewrite Hone. exact Hacc.
Qed.

Lemma loaded_urls_length (urls : list text) (msgs : list UiMsg) :
  (List.length (loaded_urls urls msgs) <= List.length urls)%nat.
Proof.
  revert msgs. induction urls as [|u urls IH]; intros [|m msgs];
    cbn [loaded_urls List.length]; try lia.
  specialize (IH msgs). rewrite length_app.
  destruct (is_success m); cbn [List.length]; lia.
Qed.

(** X12.  The fallback returns at most one document for each URL it was
    given, whatever the pages contain, and each document has one of these
    URLs as its source. *)
Theorem fallback_at_most_one_document_per_url (urls : list text) (st : State E) :
  exists docs,
    fst (fallback_bs4_loader E urls st) = Ok docs
    /\ (List.length docs <= List.length urls)%nat
    /\ Forall (fun d => exists u, In u urls /\ source d = Some u) docs.
Proof.
  destruct (fallback_loop_spec E urls [] st)
    as (new & st' & msgs & Hrun & _ & _ & _ & _ & _ & Hdocs & Hmeta).
  exists new. unfold fallback_bs4_loader. rewrite Hrun.
  split; [reflexivity|]. split.
  - rewrite <- (length_map metadata new), Hmeta, length_map.
    apply loaded_urls_length.
  - eapply Forall_impl; [|exact Hdocs].
    intros d (u & Hu & Hm & _). exists u. split; [exact Hu|].
    unfold source. rewrite Hm. cbn [dict_get]. rewrite text_eqb_refl. reflexivity.
Qed.

(** X13.  When the primary loader returns documents for a non-empty list of
    URLs, exactly these documents are counted and chunked: the page shows
    their number as "Loaded docs", [split_documents] is called on the
    loader's list as it is, and no page is requested. *)
Theorem primary_documents_are_chunked (urls : list text) (st : State E)
    (d : Document) (ds : list Document) (w : world E) :
  truthy urls = true ->
  unstructured_load E urls user_agent_headers (outside E st) = (inr (d :: ds), w) ->
  exists front back,
    calls E (snd (process_urls E urls st))
    = calls E st ++ [CallUnstructuredLoad E urls; CallSplitDocuments E (d :: ds)]
      ++ back
    /\ ui E (snd (process_urls E urls st))
       = ui E st ++ [msg_loading; msg_loaded (len (d :: ds))] ++ front.
Proof.
  intros Hurls Hload.
  destruct (fetch_documents_shape E urls (shown E msg_loading st))
    as (data & st1 & msgs & cs & Hfetch & _ & Hui & _ & Hcs & _ & Hshape).
  cbn [shown outside ui calls] in *. rewrite Hload in Hshape. cbn [fst] in Hshape.
  destruct Hshape as (-> & -> & ->).
  destruct (process_urls_cases E urls st (d :: ds) st1 Hurls Hfetch)
    as (r & st' & msgs2 & cs2 & Hrun & _ & _ & Hcs2 & _ & Hcase).
  destruct (process_urls_messages E urls st (d :: ds) st1 Hurls Hfetch)
    as (chunks & _ & Hmsgs); [discriminate|].
  rewrite Hrun in *. cbn [fst snd] in *.
  destruct Hcase as [(Hnil & _) | (_ & chunks' & _ & Hcase)]; [discriminate Hnil|].
  exists ([msg_split (len chunks); msg_building]
          ++ match r with Ok _ => [msg_saved] | Raise _ => [] end), (tl cs2).
  split.
  - rewrite Hcs2, Hcs.
    destruct Hcase as [(e0 & build & _ & -> & _) | (vs & w0 & _ & -> & _)];
      rewrite <- app_assoc; cbn [app tl]; reflexivity.
  - rewrite Hmsgs, Hui, app_nil_r, <- app_assoc. cbn [app]. reflexivity.
Qed.

End Extras.

(* ===================================================================== *)
(** * The further properties on the concrete environment *)
(* ===================================================================== *)

(** X3 on the environment whose pages are blank. *)
Lemma blank_page_gives_no_document_blank_pages :
  fetch_one Demo.blank_pages Demo.url_a [] (Demo.start Demo.blank_pages tt)
  = (Ok [],
     mkState Demo.blank_pages (fun _ => None) tt [msg_no_text Demo.url_a]
             [CallRequestsGet Demo.blank_pages Demo.url_a;
              CallSoup Demo.blank_pages (py "  " ++ LF ++ py " ")]).
Proof.
  apply (blank_page_gives_no_document Demo.blank_pages Demo.url_a []
           (Demo.start Demo.blank_pages tt)
           (mkResponse 200 (py "  " ++ LF ++ py " ")) tt tt [py "  "; py " "]).
  - reflexivity.
  - reflexivity.
  - vm_compute. reflexivity.
  - vm_compute. reflexivity.
Defined.

(** X4 on a run that saves an index: another path stays as it was. *)
Lemma process_urls_touches_only_index_path_online :
  fs Demo.online
     (snd (process_urls Demo.online [Demo.url_a] (Demo.start Demo.online tt)))
     (py "notes")
  = fs Demo.online (Demo.start Demo.online tt) (py "notes").
Proof.
  apply (process_urls_touches_only_index_path Demo.online [Demo.url_a]
           (Demo.start Demo.online tt) (py "notes")).
  vm_compute. reflexivity.
Defined.

(** X8 on a run with a question and no button. *)
Lemma script_without_button_only_question :
  fs Demo.online (snd (script Demo.online Demo.only_question
                         (Demo.start Demo.online tt)))
  = fs Demo.online (Demo.start Demo.online tt)
  /\ saves Demo.online
       (calls Demo.online (snd (script Demo.online Demo.only_question
                                  (Demo.start Demo.online tt))))
     = saves Demo.online (calls Demo.online (Demo.start Demo.online tt))
  /\ fetched Demo.online
       (calls Demo.online (snd (script Demo.online Demo.only_question
                                  (Demo.start Demo.online tt))))
     = fetched Demo.online (calls Demo.online (Demo.start Demo.online tt)).
Proof.
  apply (script_without_button_persists_nothing Demo.online Demo.only_question
           (Demo.start Demo.online tt)).
  reflexivity.
Defined.

(** X10 on the button pressed over blank fields, with a question. *)
Lemma script_blank_urls_continues_question :
  script Demo.online Demo.blank_with_question (Demo.start Demo.online tt)
  = script Demo.online
      (mkInputs (url_input Demo.blank_with_question) false
                (query Demo.blank_with_question))
      (shown Demo.online msg_no_url (Demo.start Demo.online tt)).
Proof.
  apply (script_blank_urls_continues Demo.online Demo.blank_with_question
           (Demo.start Demo.online tt)).
  - intros i _. unfold Demo.blank_with_question, url_input.
    destruct (Nat.eqb i 2); vm_compute; reflexivity.
  - reflexivity.
Defined.

(** X13 on the environment whose structured loader works. *)
Lemma primary_documents_are_chunked_structured :
  exists front back,
    calls Demo.structured
      (snd (process_urls Demo.structured [Demo.url_a]
              (Demo.start Demo.structured tt)))
    = calls Demo.structured (Demo.start Demo.structured tt)
      ++ [CallUnstructuredLoad Demo.structured [Demo.url_a];
          CallSplitDocuments Demo.structured
            [mkDocument (py "Body of " ++ Demo.url_a) [(py "source", Demo.url_a)]]]
      ++ back
    /\ ui Demo.structured
         (snd (process_urls Demo.structured [Demo.url_a]
                 (Demo.start Demo.structured tt)))
       = ui Demo.structured (Demo.start Demo.structured tt)
         ++ [msg_loading;
             msg_loaded (len [mkDocument (py "Body of " ++ Demo.url_a)
                                         [(py "source", Demo.url_a)]])]
         ++ front.
Proof.
  apply (primary_documents_are_chunked Demo.structured [Demo.url_a]
           (Demo.start Demo.structured tt)
           (mkDocument (py "Body of " ++ Demo.url_a) [(py "source", Demo.url_a)])
           [] tt).
  - reflexivity.
  - reflexivity.
Defined.
